(** * User dashboard service (app.py): a shallow embedding and its properties

    The service is a Flask application with three routes over one MongoDB
    collection, [user_dashboards], carrying a unique compound index on
    [(userId, dashboardId)].

    What is modelled, and how:
    - Python values that travel through the handlers (the parsed request
      body, layouts, response bodies) are values of [json]; Python's [None]
      is [JNull].
    - The collection is the list of its documents in insertion order plus
      the next free [ObjectId]; [find_one], [insert_one] and [update_one]
      follow the semantics of the pymongo calls the handlers make.
    - What the handlers read from their environment is passed in a record
      [Env]: the reading of [datetime.utcnow()] and the exception, if any,
      that the store raises on the read and on the write of the request.
    - A handler maps an environment, a request, the path parameter and the
      collection to an [Outcome] and the collection afterwards.  An
      exception that no [except] clause of the handler catches is the
      outcome [Unhandled].
    The store keeps datetimes to the millisecond, as BSON does; a document
    the store refuses to encode is an exception of [Env]. *)

From Stdlib Require Import List String Ascii Bool Arith ZArith Lia.
From Stdlib Require Import SpecFloat.
Import ListNotations.
Set Warnings "-register-all".
Local Open Scope string_scope.
Local Open Scope list_scope.

(** ** Python values *)

Module Py.

Inductive json : Type :=
| JNull
| JBool (b : bool)
| JInt (z : Z)
| JFloat (f : spec_float)
| JStr (s : string)
| JArr (items : list json)
| JObj (fields : list (string * json)).

(** [bool(v)]: the truth value Python's [not], [or] and [if] test. *)
Definition truthy (v : json) : bool :=
  match v with
  | JNull => false
  | JBool b => b
  | JInt z => negb (Z.eqb z 0)
  | JFloat (S754_zero _) => false
  | JFloat _ => true
  | JStr s => negb (String.eqb s "")
  | JArr [] => false
  | JArr (_ :: _) => true
  | JObj [] => false
  | JObj (_ :: _) => true
  end.

(** [a or b] *)
Definition or_else (a b : json) : json := if truthy a then a else b.

(** [bool(s)] for a [str]. *)
Definition str_truthy (s : string) : bool := negb (String.eqb s "").

(** [isinstance(v, list)] *)
Definition is_list (v : json) : bool :=
  match v with JArr _ => true | _ => false end.

(** Exceptions, with the class name and the text [str(e)] gives. *)
Record exn : Type := Raise { exn_class : string; exn_str : string }.

(** Lookup in the items of a [dict]: the binding of [k], if any. *)
Fixpoint assoc (k : string) (fields : list (string * json)) : option json :=
  match fields with
  | [] => None
  | (k', v) :: rest => if String.eqb k' k then Some v else assoc k rest
  end.

(** [v.get(k)]: [None] for a missing key of a [dict]; [list], [str],
    [int], [float] and [bool] have no attribute [get]. *)
Definition get (v : json) (k : string) : exn + json :=
  match v with
  | JObj fields =>
      inr (match assoc k fields with Some x => x | None => JNull end)
  | JArr _ => inl (Raise "AttributeError" "'list' object has no attribute 'get'")
  | JStr _ => inl (Raise "AttributeError" "'str' object has no attribute 'get'")
  | JInt _ => inl (Raise "AttributeError" "'int' object has no attribute 'get'")
  | JFloat _ => inl (Raise "AttributeError" "'float' object has no attribute 'get'")
  | JBool _ => inl (Raise "AttributeError" "'bool' object has no attribute 'get'")
  | JNull => inl (Raise "AttributeError" "'NoneType' object has no attribute 'get'")
  end.

End Py.
Import Py.

(** ** Naive datetimes *)

Module Datetime.

(** A [datetime.datetime] without time zone, as [utcnow()] returns it. *)
Record datetime : Type := mkDatetime {
  year : nat; month : nat; day : nat;
  hour : nat; minute : nat; second : nat; microsecond : nat
}.

(** The [w] low decimal digits of [n], most significant first: what
    ["%0wd" % n] prints for [n < 10^w]. *)
Fixpoint zero_padded (w n : nat) : string :=
  match w with
  | 0 => ""
  | S w' => zero_padded w' (n / 10) ++ String (ascii_of_nat (48 + n mod 10)) ""
  end.

(** [d.isoformat()] for a naive datetime: the microseconds are printed
    only when they are not zero. *)
Definition isoformat (d : datetime) : string :=
  zero_padded 4 (year d) ++ "-" ++ zero_padded 2 (month d) ++ "-" ++
  zero_padded 2 (day d) ++ "T" ++ zero_padded 2 (hour d) ++ ":" ++
  zero_padded 2 (minute d) ++ ":" ++ zero_padded 2 (second d) ++
  (if Nat.eqb (microsecond d) 0 then "" else "." ++ zero_padded 6 (microsecond d)).

Definition fields (d : datetime) : list nat :=
  [year d; month d; day d; hour d; minute d; second d; microsecond d].

Fixpoint lex (a b : list nat) : comparison :=
  match a, b with
  | [], [] => Eq
  | [], _ :: _ => Lt
  | _ :: _, [] => Gt
  | x :: a', y :: b' =>
      match Nat.compare x y with
      | Eq => lex a' b'
      | c => c
      end
  end.

(** Python orders naive datetimes field by field. *)
Definition compare (a b : datetime) : comparison := lex (fields a) (fields b).

Definition le (a b : datetime) : Prop := compare a b <> Gt.
Definition lt (a b : datetime) : Prop := compare a b = Lt.

End Datetime.
Import Datetime.

(** ** HTTP requests and responses *)

(** What [request.get_json(silent=True)] has to work with: a body that is
    JSON text of some value, or anything else (text that is not JSON, no
    body, a content type other than JSON). *)
Inductive Body : Type :=
| NotJson
| Json (v : json).

Record Request : Type := mkRequest {
  headers : list (string * string);
  body : Body
}.

Definition lower (c : ascii) : ascii :=
  let n := nat_of_ascii c in
  if andb (Nat.leb 65 n) (Nat.leb n 90) then ascii_of_nat (n + 32) else c.

Fixpoint lowercase (s : string) : string :=
  match s with
  | EmptyString => EmptyString
  | String c s' => String (lower c) (lowercase s')
  end.

(** [request.headers.get(name)]: header names are matched without regard
    to case, the first field of that name is returned, [None] when there is
    none. *)
Fixpoint headers_get (hs : list (string * string)) (name : string) : option string :=
  match hs with
  | [] => None
  | (k, v) :: rest =>
      if String.eqb (lowercase k) (lowercase name) then Some v
      else headers_get rest name
  end.

(** [request.get_json(silent=True)]: the parsed value, [None] when the
    body cannot be parsed. *)
Definition get_json_silent (r : Request) : json :=
  match body r with
  | NotJson => JNull
  | Json v => v
  end.

(** What a route produces: a response [jsonify(body), status], or an
    exception that leaves the handler. *)
Inductive Outcome : Type :=
| Respond (status : nat) (payload : json)
| Unhandled (e : exn).

(** ** Helpers of app.py *)

(** [get_current_user_id]: the [X-User-Id] header, or ["demo-user"] when
    [not user_id]. *)
Definition get_current_user_id (r : Request) : string :=
  match headers_get (headers r) "X-User-Id" with
  | Some user_id => if str_truthy user_id then user_id else "demo-user"
  | None => "demo-user"
  end.

(** ** The collection [user_dashboards] *)

Definition ObjectId : Type := nat.

(** A document of the collection.  [_id] is absent until the document is
    inserted; [layout] and [updatedAt] may be missing from a stored
    document, which is what [doc.get] in [serialize_dashboard] allows for. *)
Record Document : Type := mkDocument {
  _id : option ObjectId;
  userId : string;
  dashboardId : string;
  layout : option json;
  updatedAt : option datetime
}.

Record Collection : Type := mkCollection {
  docs : list Document;
  next_oid : ObjectId
}.

Definition empty_collection : Collection := mkCollection [] 0.

(** The query [{"userId": user_id, "dashboardId": dashboard_id}]. *)
Definition matches (user_id dashboard_id : string) (d : Document) : bool :=
  String.eqb (userId d) user_id && String.eqb (dashboardId d) dashboard_id.

(** What the unique index on [(userId, dashboardId)] answers to a write
    that would store a second document under a key. *)
Definition duplicate_key_error : exn :=
  Raise "DuplicateKeyError"
        "E11000 duplicate key error collection: user_dashboards index: userId_1_dashboardId_1".

(** [dashboards_col.find_one(query)]: the first document that matches. *)
Definition find_one (err : option exn) (col : Collection)
    (user_id dashboard_id : string) : exn + option Document :=
  match err with
  | Some e => inl e
  | None => inr (List.find (matches user_id dashboard_id) (docs col))
  end.

(** A datetime as the store keeps it: BSON counts milliseconds, so the
    microseconds below the millisecond are dropped on the way in. *)
Definition bson_datetime (t : datetime) : datetime :=
  mkDatetime (year t) (month t) (day t) (hour t) (minute t) (second t)
    (microsecond t / 1000 * 1000).

(** [dashboards_col.insert_one(doc)]: the document gets its [_id] and is
    appended, unless the store raises or the unique index refuses it.  The
    document is returned as the call leaves the caller's dict, with its
    [_id] and the datetime the caller put in; the collection holds it at
    the store's precision. *)
Definition insert_one (err : option exn) (col : Collection) (doc : Document)
  : exn + (Document * Collection) :=
  match err with
  | Some e => inl e
  | None =>
      if existsb (matches (userId doc) (dashboardId doc)) (docs col)
      then inl duplicate_key_error
      else
        let with_id := mkDocument (Some (next_oid col)) (userId doc)
                         (dashboardId doc) (layout doc) (updatedAt doc) in
        let stored := mkDocument (Some (next_oid col)) (userId doc)
                        (dashboardId doc) (layout doc)
                        (option_map bson_datetime (updatedAt doc)) in
        inr (with_id, mkCollection (docs col ++ [stored]) (S (next_oid col)))
  end.

(** [{"$set": {"layout": l, "updatedAt": t}}] applied to one document. *)
Definition set_fields (l : json) (t : datetime) (d : Document) : Document :=
  mkDocument (_id d) (userId d) (dashboardId d) (Some l) (Some t).

(** Apply [f] to the first element that satisfies [p]. *)
Fixpoint update_first {A : Type} (p : A -> bool) (f : A -> A) (l : list A) : list A :=
  match l with
  | [] => []
  | x :: rest => if p x then f x :: rest else x :: update_first p f rest
  end.

Record UpdateResult : Type := mkUpdateResult {
  upserted_id : option ObjectId
}.

(** [dashboards_col.update_one(query, {"$set": ...}, upsert=True)]: the
    first matching document is updated in place; when none matches, a
    document made of the query's fields and the [$set] fields is inserted
    and its [_id] reported as [upserted_id].  The datetime is kept at the
    store's precision. *)
Definition update_one (err : option exn) (col : Collection)
    (user_id dashboard_id : string) (l : json) (t : datetime)
  : exn + (UpdateResult * Collection) :=
  match err with
  | Some e => inl e
  | None =>
      if existsb (matches user_id dashboard_id) (docs col)
      then inr (mkUpdateResult None,
                mkCollection
                  (update_first (matches user_id dashboard_id)
                     (set_fields l (bson_datetime t)) (docs col))
                  (next_oid col))
      else
        let stored := mkDocument (Some (next_oid col)) user_id dashboard_id
                        (Some l) (Some (bson_datetime t)) in
        inr (mkUpdateResult (Some (next_oid col)),
             mkCollection (docs col ++ [stored]) (S (next_oid col)))
  end.

(** The constraint of the unique index: no two documents of the collection
    have the same [(userId, dashboardId)]. *)
Definition doc_key (d : Document) : string * string := (userId d, dashboardId d).

Definition unique_index (col : Collection) : Prop := NoDup (map doc_key (docs col)).

(** The number of documents stored under a key. *)
Definition count_key (col : Collection) (user_id dashboard_id : string) : nat :=
  List.length (filter (matches user_id dashboard_id) (docs col)).

(** ** The environment of one request *)

Record Env : Type := mkEnv {
  utcnow : datetime;             (* what datetime.utcnow() returns *)
  read_error : option exn;       (* raised by find_one, if any *)
  write_error : option exn       (* raised by insert_one / update_one, if any *)
}.

(** ** Serialization *)

(** [serialize_dashboard(doc)] *)
Definition serialize_dashboard (doc : option Document) : json :=
  match doc with
  | None => JNull
  | Some d =>
      JObj [ ("userId", JStr (userId d));
             ("dashboardId", JStr (dashboardId d));
             ("layout", match layout d with Some l => l | None => JArr [] end);
             ("updatedAt", match updatedAt d with
                           | Some t => JStr (isoformat t ++ "Z")
                           | None => JNull
                           end) ]
  end.

Definition error_body (msg : string) : json := JObj [("error", JStr msg)].

(** ** Routes *)

(** [GET /api/v1/dashboard/<dashboard_id>] *)
Definition get_dashboard (env : Env) (r : Request) (dashboard_id : string)
    (col : Collection) : Outcome * Collection :=
  let user_id := get_current_user_id r in
  if negb (str_truthy user_id) then (Respond 401 (error_body "Unauthorized"), col)
  else
    match find_one (read_error env) col user_id dashboard_id with
    | inl e => (Unhandled e, col)
    | inr (Some doc) => (Respond 200 (serialize_dashboard (Some doc)), col)
    | inr None =>
        let now := utcnow env in
        let default_doc :=
          mkDocument None user_id dashboard_id (Some (JArr [])) (Some now) in
        match insert_one (write_error env) col default_doc with
        | inl e =>
            (Respond 500
               (error_body ("Failed to create default dashboard: " ++ exn_str e)),
             col)
        | inr (default_doc', col') =>
            (Respond 200 (serialize_dashboard (Some default_doc')), col')
        end
    end.

(** [PUT /api/v1/dashboard/<dashboard_id>] *)
Definition upsert_dashboard (env : Env) (r : Request) (dashboard_id : string)
    (col : Collection) : Outcome * Collection :=
  let user_id := get_current_user_id r in
  if negb (str_truthy user_id) then (Respond 401 (error_body "Unauthorized"), col)
  else
    let data := or_else (get_json_silent r) (JObj []) in
    match get data "layout" with
    | inl e => (Unhandled e, col)
    | inr layout_v =>
        if match layout_v with JNull => true | _ => false end
           || negb (is_list layout_v)
        then (Respond 400 (error_body "Field 'layout' (array) is required"), col)
        else
          let now := utcnow env in
          match update_one (write_error env) col user_id dashboard_id layout_v now with
          | inl e =>
              (Respond 500 (error_body ("Failed to upsert dashboard: " ++ exn_str e)),
               col)
          | inr (result, col') =>
              let status :=
                match upserted_id result with
                | Some _ => "created"
                | None => "updated"
                end in
              match find_one (read_error env) col' user_id dashboard_id with
              | inl e => (Unhandled e, col')
              | inr doc =>
                  (Respond (if String.eqb status "created" then 201 else 200)
                     (JObj [ ("status", JStr status);
                             ("dashboard", serialize_dashboard doc) ]),
                   col')
              end
          end
    end.

(** [GET /health] *)
Definition health : Outcome := Respond 200 (JObj [("status", JStr "ok")]).

(** ** Runs of the service *)

(** The two routes that touch the collection. *)
Inductive Call : Type :=
| GET (env : Env) (r : Request) (dashboard_id : string)
| PUT (env : Env) (r : Request) (dashboard_id : string).

Definition handle (c : Call) (col : Collection) : Outcome * Collection :=
  match c with
  | GET env r d => get_dashboard env r d col
  | PUT env r d => upsert_dashboard env r d col
  end.

(** The collections the service can produce, one request after the other,
    from the empty collection. *)
Inductive reachable : Collection -> Prop :=
| reachable_empty : reachable empty_collection
| reachable_step : forall c col, reachable col -> reachable (snd (handle c col)).

(** The text ends in the letter Z. *)
Definition ends_in_Z (s : string) : Prop := exists prefix : string, s = (prefix ++ "Z")%string.

(** ** Vocabulary of the statements *)

(** The value under [k] of a JSON object. *)
Definition field (k : string) (v : json) : option json :=
  match v with
  | JObj fs => assoc k fs
  | _ => None
  end.

(** What the PUT handler extracts from a request: [data.get("layout")]
    for [data = request.get_json(silent=True) or {}]. *)
Definition request_layout (r : Request) : exn + json :=
  get (or_else (get_json_silent r) (JObj [])) "layout".

(** A PUT succeeded when it answered 200 or 201. *)
Definition successful (o : Outcome) : bool :=
  match o with
  | Respond code _ => Nat.eqb code 200 || Nat.eqb code 201
  | Unhandled _ => false
  end.

Definition status_of (o : Outcome) : option nat :=
  match o with
  | Respond code _ => Some code
  | Unhandled _ => None
  end.

(** The document the collection holds under a key: the one a fault-free
    [find_one] returns. *)
Definition stored (col : Collection) (user_id dashboard_id : string) : option Document :=
  List.find (matches user_id dashboard_id) (docs col).

(** The body of a dashboard as the API shows it. *)
Definition dashboard_json (user_id dashboard_id : string) (l : json) (t : datetime) : json :=
  JObj [ ("userId", JStr user_id); ("dashboardId", JStr dashboard_id);
         ("layout", l); ("updatedAt", JStr (isoformat t ++ "Z")) ].

(** ** Runs, keys and interleavings *)

(** The key a request reads and writes. *)
Definition key_of (c : Call) : string * string :=
  match c with
  | GET _ r d => (get_current_user_id r, d)
  | PUT _ r d => (get_current_user_id r, d)
  end.

(** The clock reading of the request. *)
Definition clock (c : Call) : datetime :=
  match c with
  | GET env _ _ => utcnow env
  | PUT env _ _ => utcnow env
  end.

(** The collection after a sequence of requests, served one by one. *)
Fixpoint run (cs : list Call) (col : Collection) : Collection :=
  match cs with
  | [] => col
  | c :: rest => run rest (snd (handle c col))
  end.

(** A document as the handlers write it: it has its [_id], its layout is
    a list and its [updatedAt] is set. *)
Definition written_by_service (d : Document) : Prop :=
  (exists oid, _id d = Some oid) /\
  (exists items, layout d = Some (JArr items)) /\
  (exists t, updatedAt d = Some t).

(** No document of the collection is stamped later than [t]. *)
Definition stamped_by (t : datetime) (col : Collection) : Prop :=
  forall doc t', In doc (docs col) -> updatedAt doc = Some t' -> Datetime.le t' t.

(** Collections reached from the empty one by requests whose clock
    readings never go back; the index is the last reading. *)
Inductive reachable_forward : datetime -> Collection -> Prop :=
| forward_empty : forall t, reachable_forward t empty_collection
| forward_step : forall t c col,
    reachable_forward t col -> Datetime.le t (clock c) ->
    reachable_forward (clock c) (snd (handle c col)).

(** The writes the handlers send to the store: the [insert_one] of a
    default document by a GET, the [update_one] of a PUT with the list it
    was given.  Each is one atomic step of the store. *)
Inductive write_of_handler : Collection -> Collection -> Prop :=
| write_insert_default :
    forall err col user_id dashboard_id now doc' col',
      insert_one err col
        (mkDocument None user_id dashboard_id (Some (JArr [])) (Some now))
        = inr (doc', col') ->
      write_of_handler col col'
| write_upsert :
    forall err col user_id dashboard_id items now res col',
      update_one err col user_id dashboard_id (JArr items) now = inr (res, col') ->
      write_of_handler col col'.

(** The collections the service can produce when requests are served
    concurrently: from the empty collection, the writes of the handlers in
    any order and number.  A GET that has seen no document may send its
    insert at any later moment, whatever the collection has become. *)
Inductive reachable_concurrently : Collection -> Prop :=
| concurrently_empty : reachable_concurrently empty_collection
| concurrently_write : forall col col',
    reachable_concurrently col -> write_of_handler col col' ->
    reachable_concurrently col'.

(** Each handler makes two calls to the store, and each call is atomic in
    the store, but the pair is not: other requests may be served between
    the two.  [between] is what those requests do to the collection.

    [get_dashboard] with its [find_one] on the collection as it is when
    the request arrives and its [insert_one] on the collection as the
    other requests left it. *)
Definition get_dashboard_interleaved (between : Collection -> Collection)
    (env : Env) (r : Request) (dashboard_id : string) (col : Collection)
  : Outcome * Collection :=
  let user_id := get_current_user_id r in
  if negb (str_truthy user_id) then (Respond 401 (error_body "Unauthorized"), col)
  else
    match find_one (read_error env) col user_id dashboard_id with
    | inl e => (Unhandled e, col)
    | inr (Some doc) => (Respond 200 (serialize_dashboard (Some doc)), col)
    | inr None =>
        let now := utcnow env in
        let default_doc :=
          mkDocument None user_id dashboard_id (Some (JArr [])) (Some now) in
        match insert_one (write_error env) (between col) default_doc with
        | inl e =>
            (Respond 500
               (error_body ("Failed to create default dashboard: " ++ exn_str e)),
             between col)
        | inr (default_doc', col') =>
            (Respond 200 (serialize_dashboard (Some default_doc')), col')
        end
    end.

(** [upsert_dashboard] with its [update_one] on the collection as it is
    when the request arrives and its [find_one] on the collection as the
    other requests left it after the update. *)
Definition upsert_dashboard_interleaved (between : Collection -> Collection)
    (env : Env) (r : Request) (dashboard_id : string) (col : Collection)
  : Outcome * Collection :=
  let user_id := get_current_user_id r in
  if negb (str_truthy user_id) then (Respond 401 (error_body "Unauthorized"), col)
  else
    let data := or_else (get_json_silent r) (JObj []) in
    match get data "layout" with
    | inl e => (Unhandled e, col)
    | inr layout_v =>
        if match layout_v with JNull => true | _ => false end
           || negb (is_list layout_v)
        then (Respond 400 (error_body "Field 'layout' (array) is required"), col)
        else
          let now := utcnow env in
          match update_one (write_error env) col user_id dashboard_id layout_v now with
          | inl e =>
              (Respond 500 (error_body ("Failed to upsert dashboard: " ++ exn_str e)),
               col)
          | inr (result, col') =>
              let status :=
                match upserted_id result with
                | Some _ => "created"
                | None => "updated"
                end in
              match find_one (read_error env) (between col') user_id dashboard_id with
              | inl e => (Unhandled e, between col')
              | inr doc =>
                  (Respond (if String.eqb status "created" then 201 else 200)
                     (JObj [ ("status", JStr status);
                             ("dashboard", serialize_dashboard doc) ]),
                   between col')
              end
          end
    end.

(** * Properties *)

(** ** The identity resolver *)

Lemma str_truthy_nonempty (s : string) : str_truthy s = true <-> s <> "".
Proof.
  unfold str_truthy. destruct (String.eqb_spec s ""); simpl; split; congruence.
Qed.

Lemma get_current_user_id_truthy (r : Request) :
  str_truthy (get_current_user_id r) = true.
Proof.
  unfold get_current_user_id.
  destruct (headers_get (headers r) "X-User-Id") as [v|]; [|reflexivity].
  destruct (str_truthy v) eqn:E; [exact E | reflexivity].
Qed.

(** Both handlers, once the identity check is known to pass. *)
Lemma get_dashboard_eq env r d col :
  get_dashboard env r d col =
  let user_id := get_current_user_id r in
  match find_one (read_error env) col user_id d with
  | inl e => (Unhandled e, col)
  | inr (Some doc) => (Respond 200 (serialize_dashboard (Some doc)), col)
  | inr None =>
      match insert_one (write_error env) col
              (mkDocument None user_id d (Some (JArr [])) (Some (utcnow env))) with
      | inl e =>
          (Respond 500
             (error_body ("Failed to create default dashboard: " ++ exn_str e)), col)
      | inr (doc', col') => (Respond 200 (serialize_dashboard (Some doc')), col')
      end
  end.
Proof.
  unfold get_dashboard. rewrite get_current_user_id_truthy. reflexivity.
Qed.

Lemma upsert_dashboard_eq env r d col :
  upsert_dashboard env r d col =
  let user_id := get_current_user_id r in
  match request_layout r with
  | inl e => (Unhandled e, col)
  | inr (JArr items) =>
      match update_one (write_error env) col user_id d (JArr items) (utcnow env) with
      | inl e =>
          (Respond 500 (error_body ("Failed to upsert dashboard: " ++ exn_str e)), col)
      | inr (result, col') =>
          match find_one (read_error env) col' user_id d with
          | inl e => (Unhandled e, col')
          | inr doc =>
              match upserted_id result with
              | Some _ =>
                  (Respond 201 (JObj [ ("status", JStr "created");
                                       ("dashboard", serialize_dashboard doc) ]), col')
              | None =>
                  (Respond 200 (JObj [ ("status", JStr "updated");
                                       ("dashboard", serialize_dashboard doc) ]), col')
              end
          end
      end
  | inr _ => (Respond 400 (error_body "Field 'layout' (array) is required"), col)
  end.
Proof.
  unfold upsert_dashboard, request_layout.
  rewrite get_current_user_id_truthy. cbn [negb].
  destruct (get (or_else (get_json_silent r) (JObj [])) "layout") as [e|v];
    [reflexivity|].
  destruct v; try reflexivity.
  cbn [is_list negb orb].
  destruct (update_one _ _ _ _ _ _) as [e|[res col']]; [reflexivity|].
  destruct (find_one _ _ _ _) as [e|doc]; [reflexivity|].
  destruct (upserted_id res); reflexivity.
Qed.

Lemma get_dashboard_not_401 env r d col :
  status_of (fst (get_dashboard env r d col)) <> Some 401.
Proof.
  rewrite get_dashboard_eq. cbv zeta.
  destruct (find_one _ _ _ _) as [e|[doc|]]; simpl; try discriminate.
  destruct (insert_one _ _ _) as [e|[doc' col']]; simpl; discriminate.
Qed.

Lemma upsert_dashboard_not_401 env r d col :
  status_of (fst (upsert_dashboard env r d col)) <> Some 401.
Proof.
  rewrite upsert_dashboard_eq. cbv zeta.
  destruct (request_layout r) as [e|v]; simpl; try discriminate.
  destruct v; simpl; try discriminate.
  destruct (update_one _ _ _ _ _ _) as [e|[res col']]; simpl; try discriminate.
  destruct (find_one _ _ _ _) as [e|doc]; simpl; try discriminate.
  destruct (upserted_id res); simpl; discriminate.
Qed.

(** C7 (as stated, refuted): a request whose [X-User-Id] header is present
    with the empty string as its value does not get that value back; the
    resolver answers ["demo-user"]. *)
Lemma header_present_not_verbatim :
  let r := mkRequest [("X-User-Id", "")] NotJson in
  headers_get (headers r) "X-User-Id" = Some "" /\
  get_current_user_id r = "demo-user" /\
  get_current_user_id r <> "".
Proof.
  cbv zeta. repeat split; try reflexivity. discriminate.
Qed.

(** C7 (amended): the resolver returns the [X-User-Id] header verbatim when
    it is present and not empty, the fixed identity ["demo-user"] when it
    is absent or empty, and never the empty string; neither dashboard
    handler ever answers 401. *)
Theorem identity_resolver (r : Request) :
  (forall v, headers_get (headers r) "X-User-Id" = Some v -> v <> "" ->
             get_current_user_id r = v) /\
  (headers_get (headers r) "X-User-Id" = None \/
   headers_get (headers r) "X-User-Id" = Some "" ->
   get_current_user_id r = "demo-user") /\
  get_current_user_id r <> "" /\
  (forall env d col,
     status_of (fst (get_dashboard env r d col)) <> Some 401 /\
     status_of (fst (upsert_dashboard env r d col)) <> Some 401).
Proof.
  repeat split.
  - intros v Hv Hne. unfold get_current_user_id. rewrite Hv.
    apply str_truthy_nonempty in Hne. now rewrite Hne.
  - intros [H|H]; unfold get_current_user_id; rewrite H; reflexivity.
  - apply str_truthy_nonempty, get_current_user_id_truthy.
  - apply get_dashboard_not_401.
  - apply upsert_dashboard_not_401.
Qed.

Lemma identity_resolver_witness :
  let r := mkRequest [("x-user-id", "alice")] NotJson in
  get_current_user_id r = "alice".
Proof.
  cbv zeta.
  apply (proj1 (identity_resolver (mkRequest [("x-user-id", "alice")] NotJson)) "alice").
  - reflexivity.
  - discriminate.
Defined.

(** C10: when the [X-User-Id] header is present with the empty string as
    its value, the resolver answers ["demo-user"], not the header value;
    the identity it resolves is never the empty string. *)
Theorem empty_header_falls_back (r : Request) :
  headers_get (headers r) "X-User-Id" = Some "" ->
  get_current_user_id r = "demo-user" /\
  get_current_user_id r <> "" /\
  (forall r', get_current_user_id r' <> "").
Proof.
  intros H. repeat split.
  - unfold get_current_user_id. rewrite H. reflexivity.
  - apply str_truthy_nonempty, get_current_user_id_truthy.
  - intros r'. apply str_truthy_nonempty, get_current_user_id_truthy.
Qed.

Lemma empty_header_falls_back_witness :
  let r := mkRequest [("Accept", "*/*"); ("X-User-Id", "")] NotJson in
  headers_get (headers r) "X-User-Id" = Some "" /\
  get_current_user_id r = "demo-user".
Proof.
  cbv zeta. split; [reflexivity|].
  apply (empty_header_falls_back
           (mkRequest [("Accept", "*/*"); ("X-User-Id", "")] NotJson)).
  reflexivity.
Defined.

(** ** Validation of the PUT body *)

(** Whatever [data.get("layout")] yields that is not a list is refused
    with 400, and nothing is written. *)
Lemma upsert_dashboard_rejects env r d col v :
  request_layout r = inr v -> is_list v = false ->
  upsert_dashboard env r d col =
  (Respond 400 (error_body "Field 'layout' (array) is required"), col).
Proof.
  intros Hv Hl. rewrite upsert_dashboard_eq. cbv zeta. rewrite Hv.
  destruct v; try reflexivity. discriminate.
Qed.

(** A body that is a JSON object, or that [or {}] turns into one, without
    a list under [layout]: the 400 answer of the handler. *)
Lemma upsert_dashboard_object_without_layout env r d col fs :
  or_else (get_json_silent r) (JObj []) = JObj fs ->
  (assoc "layout" fs = None \/
   exists v, assoc "layout" fs = Some v /\ is_list v = false) ->
  upsert_dashboard env r d col =
  (Respond 400 (error_body "Field 'layout' (array) is required"), col).
Proof.
  intros Hd H.
  assert (exists v, request_layout r = inr v /\ is_list v = false) as (v & Hv & Hl).
  { unfold request_layout. rewrite Hd. cbn [get].
    destruct H as [H|(v & H & Hl)]; rewrite H; eauto. }
  eapply upsert_dashboard_rejects; eassumption.
Qed.

(** A body that parses to a value Python holds true and that is not an
    object never reaches the validation: [data.get] raises. *)
Lemma upsert_dashboard_non_object env r d col :
  truthy (get_json_silent r) = true ->
  (forall fs, get_json_silent r <> JObj fs) ->
  exists e, exn_class e = "AttributeError" /\
            upsert_dashboard env r d col = (Unhandled e, col).
Proof.
  intros Ht Hno. rewrite upsert_dashboard_eq. cbv zeta.
  unfold request_layout, or_else. rewrite Ht.
  destruct (get_json_silent r) eqn:E; cbn [get];
    try (eexists; split; [|reflexivity]; reflexivity).
  exfalso. eapply Hno. reflexivity.
Qed.

(** C4 (the code departs from it): a PUT whose body is the JSON array
    [[1]] has no [layout] key, yet the handler does not answer 400: the
    call [data.get("layout")] raises [AttributeError], which nothing in
    the handler catches. *)
Theorem array_body_raises env hs d col :
  upsert_dashboard env (mkRequest hs (Json (JArr [JInt 1]))) d col =
  (Unhandled (Raise "AttributeError" "'list' object has no attribute 'get'"), col).
Proof.
  rewrite upsert_dashboard_eq. reflexivity.
Qed.

(** C8: a PUT whose body is not JSON, or is JSON for [null] (or for any
    other value Python holds false), is handled as the empty object: the
    answer is the 400 of a missing [layout], the very outcome of the same
    request with body [{}], and nothing is written. *)
Theorem unparsable_body_is_empty_object env r d col :
  truthy (get_json_silent r) = false ->
  upsert_dashboard env r d col =
    (Respond 400 (error_body "Field 'layout' (array) is required"), col) /\
  upsert_dashboard env r d col =
    upsert_dashboard env (mkRequest (headers r) (Json (JObj []))) d col.
Proof.
  intros Hf.
  assert (E : request_layout r = inr JNull).
  { unfold request_layout, or_else. rewrite Hf. reflexivity. }
  assert (R : upsert_dashboard env r d col =
              (Respond 400 (error_body "Field 'layout' (array) is required"), col)).
  { eapply upsert_dashboard_rejects; [exact E | reflexivity]. }
  split; [exact R|]. rewrite R. symmetry.
  eapply upsert_dashboard_rejects; reflexivity.
Qed.

Lemma unparsable_body_is_empty_object_witness :
  let env := mkEnv (mkDatetime 2024 5 17 9 30 0 0) None None in
  let r := mkRequest [("X-User-Id", "alice")] NotJson in
  truthy (get_json_silent r) = false /\
  upsert_dashboard env r "d1" empty_collection =
    (Respond 400 (error_body "Field 'layout' (array) is required"), empty_collection).
Proof.
  cbv zeta. split; [reflexivity|].
  apply (unparsable_body_is_empty_object
           (mkEnv (mkDatetime 2024 5 17 9 30 0 0) None None)
           (mkRequest [("X-User-Id", "alice")] NotJson) "d1" empty_collection).
  reflexivity.
Defined.

(** ** Lists of documents *)

Section Lists.

Context {A : Type}.
Variables p q : A -> bool.
Variable f : A -> A.

Lemma find_none_existsb (l : list A) : find p l = None <-> existsb p l = false.
Proof.
  induction l as [|x l IH]; simpl; [tauto|].
  destruct (p x); simpl; [split; discriminate | exact IH].
Qed.

Lemma find_app_one (l : list A) (x : A) :
  find p (l ++ [x]) =
  match find p l with
  | Some y => Some y
  | None => if p x then Some x else None
  end.
Proof.
  induction l as [|y l IH]; simpl; [reflexivity|].
  destruct (p y); [reflexivity | exact IH].
Qed.

Lemma find_update_first (l : list A) :
  (forall x, p x = true -> p (f x) = true) ->
  find p (update_first p f l) = option_map f (find p l).
Proof.
  intros Hp. induction l as [|x l IH]; simpl; [reflexivity|].
  destruct (p x) eqn:E; simpl.
  - now rewrite (Hp x E).
  - now rewrite E.
Qed.

Lemma find_update_first_other (l : list A) :
  (forall x, q (f x) = q x) ->
  (forall x, p x = true -> q x = false) ->
  find q (update_first p f l) = find q l.
Proof.
  intros Hf Hpq. induction l as [|x l IH]; simpl; [reflexivity|].
  destruct (p x) eqn:E; simpl.
  - rewrite Hf, (Hpq x E). reflexivity.
  - destruct (q x); [reflexivity | exact IH].
Qed.

Lemma length_update_first (l : list A) :
  List.length (update_first p f l) = List.length l.
Proof.
  induction l as [|x l IH]; simpl; [reflexivity|].
  destruct (p x); simpl; congruence.
Qed.

Lemma map_update_first {B : Type} (g : A -> B) (l : list A) :
  (forall x, g (f x) = g x) -> map g (update_first p f l) = map g l.
Proof.
  intros Hg. induction l as [|x l IH]; simpl; [reflexivity|].
  destruct (p x); simpl; [now rewrite Hg | now rewrite IH].
Qed.

End Lists.

(** ** Keys *)

Lemma matches_spec u d x : matches u d x = true <-> doc_key x = (u, d).
Proof.
  unfold matches, doc_key. rewrite andb_true_iff, !String.eqb_eq.
  split; [intros [-> ->]; reflexivity | intros H; inversion H; split; reflexivity].
Qed.

Lemma matches_set_fields u d l t x : matches u d (set_fields l t x) = matches u d x.
Proof. reflexivity. Qed.

Lemma matches_other u d u' d' x :
  (u', d') <> (u, d) -> matches u d x = true -> matches u' d' x = false.
Proof.
  intros Hne H. apply matches_spec in H.
  destruct (matches u' d' x) eqn:E; [|reflexivity].
  apply matches_spec in E. congruence.
Qed.

Lemma stored_matches col u d x :
  stored col u d = Some x -> userId x = u /\ dashboardId x = d.
Proof.
  intros H. apply find_some in H as [_ H]. apply matches_spec in H.
  unfold doc_key in H. now inversion H.
Qed.

(** ** The store operations *)

Lemma stored_none_existsb col u d :
  stored col u d = None <-> existsb (matches u d) (docs col) = false.
Proof. apply find_none_existsb. Qed.

Lemma matches_refl oid u d l t : matches u d (mkDocument oid u d l t) = true.
Proof. unfold matches. simpl. now rewrite !String.eqb_refl. Qed.

(** A write that raises leaves no result; a write that returns was not
    hit by a fault. *)
Lemma update_one_inr err col u d l t res col' :
  update_one err col u d l t = inr (res, col') -> err = None.
Proof. destruct err; [discriminate | reflexivity]. Qed.

(** What [update_one] with [upsert=True] does when the store is up: the
    document under the key carries exactly the new layout and time, the
    other keys keep their documents, and either a document was inserted
    and [upserted_id] says so, or one was there and the count is the same. *)
Lemma update_one_spec col u d l t res col' :
  update_one None col u d l t = inr (res, col') ->
  (exists oid, stored col' u d =
                 Some (mkDocument oid u d (Some l) (Some (bson_datetime t)))) /\
  (forall u' d', (u', d') <> (u, d) -> stored col' u' d' = stored col u' d') /\
  ((exists oid, upserted_id res = Some oid) /\ stored col u d = None /\
     List.length (docs col') = S (List.length (docs col))
   \/
   upserted_id res = None /\ stored col u d <> None /\
     List.length (docs col') = List.length (docs col)).
Proof.
  unfold update_one.
  destruct (existsb (matches u d) (docs col)) eqn:E; intros H;
    inversion H; subst; clear H; unfold stored; cbn [docs upserted_id].
  - assert (Hs : exists x, find (matches u d) (docs col) = Some x).
    { destruct (find (matches u d) (docs col)) as [x|] eqn:F; [eauto|].
      apply find_none_existsb in F. congruence. }
    destruct Hs as [x Hx]. repeat split.
    + exists (_id x). rewrite find_update_first by (intros; assumption).
      rewrite Hx. cbn [option_map]. unfold set_fields.
      destruct (stored_matches col u d x Hx) as [-> ->]. reflexivity.
    + intros u' d' Hne. apply find_update_first_other; [reflexivity|].
      intros y. apply matches_other. exact Hne.
    + right. repeat split.
      * rewrite Hx. discriminate.
      * apply length_update_first.
  - apply find_none_existsb in E. repeat split.
    + exists (Some (next_oid col)). rewrite find_app_one, E, matches_refl. reflexivity.
    + intros u' d' Hne. rewrite find_app_one.
      destruct (find (matches u' d') (docs col)); [reflexivity|].
      rewrite (matches_other u d u' d' _ Hne (matches_refl _ u d _ _)). reflexivity.
    + left. repeat split; eauto. rewrite length_app. simpl. lia.
Qed.

(** [insert_one] for a key that holds no document. *)
Lemma insert_one_absent col doc :
  stored col (userId doc) (dashboardId doc) = None ->
  insert_one None col doc =
  inr (mkDocument (Some (next_oid col)) (userId doc) (dashboardId doc)
         (layout doc) (updatedAt doc),
       mkCollection
         (docs col ++ [mkDocument (Some (next_oid col)) (userId doc) (dashboardId doc)
                         (layout doc) (option_map bson_datetime (updatedAt doc))])
         (S (next_oid col))).
Proof.
  intros H. apply stored_none_existsb in H. unfold insert_one. now rewrite H.
Qed.

(** ** GET on a key that holds no document *)

(** C1: when the lookup of a GET finds no document under (identity,
    dashboardId), the handler builds the default document (empty layout,
    the time read from the clock) and inserts it.  If the insert goes
    through, the answer is 200 with that document serialized, and the
    collection has gained it; if the insert raises, the answer is 500 with
    the body [{error: "Failed to create default dashboard: " + str(e)}] for
    the exception [e] raised, and the collection is as before. *)
Theorem get_dashboard_creates_default env r d col :
  let u := get_current_user_id r in
  let default_doc :=
    mkDocument (Some (next_oid col)) u d (Some (JArr [])) (Some (utcnow env)) in
  let stored_doc :=
    mkDocument (Some (next_oid col)) u d (Some (JArr []))
      (Some (bson_datetime (utcnow env))) in
  find_one (read_error env) col u d = inr None ->
  match write_error env with
  | None =>
      get_dashboard env r d col =
        (Respond 200 (serialize_dashboard (Some default_doc)),
         mkCollection (docs col ++ [stored_doc]) (S (next_oid col))) /\
      serialize_dashboard (Some default_doc) =
        dashboard_json u d (JArr []) (utcnow env)
  | Some e =>
      get_dashboard env r d col =
        (Respond 500
           (error_body ("Failed to create default dashboard: " ++ exn_str e)), col)
  end.
Proof.
  intros u default_doc stored_doc Hfind. rewrite get_dashboard_eq. cbv zeta.
  fold u. rewrite Hfind.
  destruct (write_error env) as [e|]; [reflexivity|].
  assert (Hs : stored col u d = None).
  { unfold find_one in Hfind. destruct (read_error env); [discriminate|].
    now inversion Hfind. }
  rewrite (insert_one_absent col (mkDocument None u d (Some (JArr [])) (Some (utcnow env))) Hs).
  split; reflexivity.
Qed.

Lemma get_dashboard_creates_default_witness :
  let now := mkDatetime 2024 5 17 9 30 0 1500 in
  let r := mkRequest [] NotJson in
  get_dashboard (mkEnv now None None) r "abc" empty_collection =
    (Respond 200 (dashboard_json "demo-user" "abc" (JArr []) now),
     mkCollection
       [mkDocument (Some 0) "demo-user" "abc" (Some (JArr []))
          (Some (mkDatetime 2024 5 17 9 30 0 1000))] 1) /\
  get_dashboard (mkEnv now None (Some (Raise "ServerSelectionTimeoutError" "no servers")))
      r "abc" empty_collection =
    (Respond 500
       (error_body "Failed to create default dashboard: no servers"),
     empty_collection).
Proof.
  cbv zeta. split.
  - apply (get_dashboard_creates_default
             (mkEnv (mkDatetime 2024 5 17 9 30 0 1500) None None)
             (mkRequest [] NotJson) "abc" empty_collection).
    reflexivity.
  - apply (get_dashboard_creates_default
             (mkEnv (mkDatetime 2024 5 17 9 30 0 1500) None
                (Some (Raise "ServerSelectionTimeoutError" "no servers")))
             (mkRequest [] NotJson) "abc" empty_collection).
    reflexivity.
Defined.

(** ** Successful PUTs *)

(** A PUT that answered 200 or 201 went through every step: the body
    carried a list under [layout], the upsert returned, the document was
    read back. *)
Lemma upsert_dashboard_success env r d col :
  successful (fst (upsert_dashboard env r d col)) = true ->
  let u := get_current_user_id r in
  exists items res col',
    request_layout r = inr (JArr items) /\
    update_one None col u d (JArr items) (utcnow env) = inr (res, col') /\
    write_error env = None /\ read_error env = None /\
    upsert_dashboard env r d col =
      (match upserted_id res with
       | Some _ => Respond 201 (JObj [ ("status", JStr "created");
                     ("dashboard", serialize_dashboard (stored col' u d)) ])
       | None => Respond 200 (JObj [ ("status", JStr "updated");
                     ("dashboard", serialize_dashboard (stored col' u d)) ])
       end, col').
Proof.
  rewrite upsert_dashboard_eq. cbv zeta.
  destruct (request_layout r) as [e|v]; [discriminate|].
  destruct v; try discriminate.
  destruct (update_one (write_error env) _ _ _ _ _) as [e|[res col']] eqn:U;
    [discriminate|].
  pose proof (update_one_inr _ _ _ _ _ _ _ _ U) as Hw. rewrite Hw in U.
  unfold find_one. destruct (read_error env) as [e|]; [discriminate|].
  intros _. exists items, res, col'. repeat split; try assumption.
  destruct (upserted_id res); reflexivity.
Qed.

(** C2: a PUT that succeeded answers 201 with
    [{status: "created", dashboard: <doc>}] exactly when the upsert added
    a document to the collection, which it does exactly when the key held
    none, and 200 with [{status: "updated", dashboard: <doc>}] exactly
    when it did not; [<doc>] is the document read back, serialized. *)
Theorem created_or_updated env r d col :
  successful (fst (upsert_dashboard env r d col)) = true ->
  let u := get_current_user_id r in
  let o := fst (upsert_dashboard env r d col) in
  let col' := snd (upsert_dashboard env r d col) in
  let dashboard := serialize_dashboard (stored col' u d) in
  let created := List.length (docs col') = S (List.length (docs col)) in
  (o = Respond 201 (JObj [("status", JStr "created"); ("dashboard", dashboard)])
   <-> created) /\
  (o = Respond 200 (JObj [("status", JStr "updated"); ("dashboard", dashboard)])
   <-> ~ created) /\
  (created <-> stored col u d = None).
Proof.
  intros Hs. cbv zeta.
  destruct (upsert_dashboard_success env r d col Hs)
    as (items & res & col' & _ & U & _ & _ & E).
  rewrite E. cbn [fst snd].
  destruct (update_one_spec _ _ _ _ _ _ _ U)
    as (_ & _ & [([oid Ho] & Hn & Hl) | (Ho & Hn & Hl)]); rewrite Ho.
  - repeat split; try (intros; assumption || reflexivity).
    + discriminate.
    + intros Hc. contradiction.
  - repeat split; try (intros; reflexivity).
    + discriminate.
    + intros Hc. lia.
    + lia.
    + intros Hc. lia.
    + intros Hc. contradiction.
Qed.

Lemma created_or_updated_witness :
  let env := mkEnv (mkDatetime 2024 5 17 9 30 0 0) None None in
  let r := mkRequest [("X-User-Id", "alice")]
             (Json (JObj [("layout", JArr [JObj [("widgetId", JStr "a")]])])) in
  fst (upsert_dashboard env r "d1" empty_collection) =
    Respond 201
      (JObj [("status", JStr "created");
             ("dashboard",
              dashboard_json "alice" "d1" (JArr [JObj [("widgetId", JStr "a")]])
                (mkDatetime 2024 5 17 9 30 0 0))]).
Proof.
  cbv zeta.
  apply (proj1 (created_or_updated
           (mkEnv (mkDatetime 2024 5 17 9 30 0 0) None None)
           (mkRequest [("X-User-Id", "alice")]
              (Json (JObj [("layout", JArr [JObj [("widgetId", JStr "a")]])])))
           "d1" empty_collection eq_refl)).
  reflexivity.
Defined.

(** What a successful PUT leaves under its key. *)
Lemma upsert_dashboard_stores env r d col items :
  successful (fst (upsert_dashboard env r d col)) = true ->
  request_layout r = inr (JArr items) ->
  exists oid,
    stored (snd (upsert_dashboard env r d col)) (get_current_user_id r) d =
    Some (mkDocument oid (get_current_user_id r) d (Some (JArr items))
            (Some (bson_datetime (utcnow env)))).
Proof.
  intros Hs Hl.
  destruct (upsert_dashboard_success env r d col Hs)
    as (items' & res & col' & Hl' & U & _ & _ & E).
  rewrite Hl in Hl'. inversion Hl'; subst items'.
  rewrite E. cbn [snd].
  exact (proj1 (update_one_spec _ _ _ _ _ _ _ U)).
Qed.

(** The answer of a GET depends on the collection only through the
    document stored under the key of the request. *)
Lemma get_dashboard_outcome env r d col :
  fst (get_dashboard env r d col) =
  let u := get_current_user_id r in
  match read_error env with
  | Some e => Unhandled e
  | None =>
      match stored col u d with
      | Some doc => Respond 200 (serialize_dashboard (Some doc))
      | None =>
          match write_error env with
          | Some e =>
              Respond 500
                (error_body ("Failed to create default dashboard: " ++ exn_str e))
          | None => Respond 200 (dashboard_json u d (JArr []) (utcnow env))
          end
      end
  end.
Proof.
  rewrite get_dashboard_eq. cbv zeta. unfold find_one.
  destruct (read_error env) as [e|]; [reflexivity|].
  fold (stored col (get_current_user_id r) d).
  destruct (stored col (get_current_user_id r) d) as [doc|] eqn:S; [reflexivity|].
  destruct (write_error env) as [e|]; [reflexivity|].
  rewrite (insert_one_absent col
             (mkDocument None (get_current_user_id r) d (Some (JArr []))
                (Some (utcnow env))) S).
  reflexivity.
Qed.

(** C3: after two successful PUTs to one key, with layouts [l1] and then
    [l2], the key holds a document whose layout is exactly [l2], and a GET
    on the key answers 200 with layout [l2] (hence not [l1], when the two
    differ) and leaves the collection as it is. *)
Theorem second_layout_replaces_first env1 env2 env3 r1 r2 r3 d col l1 l2 :
  let u := get_current_user_id r1 in
  let col1 := snd (upsert_dashboard env1 r1 d col) in
  let col2 := snd (upsert_dashboard env2 r2 d col1) in
  get_current_user_id r2 = u ->
  get_current_user_id r3 = u ->
  request_layout r1 = inr (JArr l1) ->
  successful (fst (upsert_dashboard env1 r1 d col)) = true ->
  request_layout r2 = inr (JArr l2) ->
  successful (fst (upsert_dashboard env2 r2 d col1)) = true ->
  read_error env3 = None ->
  (exists oid, stored col2 u d =
                 Some (mkDocument oid u d (Some (JArr l2))
                         (Some (bson_datetime (utcnow env2))))) /\
  get_dashboard env3 r3 d col2 =
    (Respond 200 (dashboard_json u d (JArr l2) (bson_datetime (utcnow env2))), col2) /\
  field "layout" (dashboard_json u d (JArr l2) (bson_datetime (utcnow env2)))
    = Some (JArr l2) /\
  (l1 <> l2 ->
   field "layout" (dashboard_json u d (JArr l2) (bson_datetime (utcnow env2)))
     <> Some (JArr l1)).
Proof.
  intros u col1 col2 Hu2 Hu3 Hl1 Hs1 Hl2 Hs2 Hr3.
  destruct (upsert_dashboard_stores env2 r2 d col1 l2 Hs2 Hl2) as [oid Hst].
  rewrite Hu2 in Hst. fold col2 in Hst.
  split; [eauto|]. split; [|split].
  - rewrite get_dashboard_eq. cbv zeta. rewrite Hu3. unfold find_one.
    rewrite Hr3. fold (stored col2 u d). rewrite Hst. reflexivity.
  - reflexivity.
  - intros Hne H. apply Hne. cbn in H. congruence.
Qed.

Lemma second_layout_replaces_first_witness :
  let t1 := mkDatetime 2024 5 17 9 30 0 0 in
  let t2 := mkDatetime 2024 5 17 9 31 0 0 in
  let t3 := mkDatetime 2024 5 17 9 32 0 0 in
  let put l := mkRequest [("X-User-Id", "alice")] (Json (JObj [("layout", JArr l)])) in
  let la := [JObj [("widgetId", JStr "a")]] in
  let lb := [JObj [("widgetId", JStr "b")]; JObj [("widgetId", JStr "c")]] in
  let col1 := snd (upsert_dashboard (mkEnv t1 None None) (put la) "d1" empty_collection) in
  let col2 := snd (upsert_dashboard (mkEnv t2 None None) (put lb) "d1" col1) in
  get_dashboard (mkEnv t3 None None) (mkRequest [("X-User-Id", "alice")] NotJson)
      "d1" col2 =
    (Respond 200 (dashboard_json "alice" "d1" (JArr lb) t2), col2).
Proof.
  cbv zeta.
  refine (proj1 (proj2 (second_layout_replaces_first
            (mkEnv (mkDatetime 2024 5 17 9 30 0 0) None None)
            (mkEnv (mkDatetime 2024 5 17 9 31 0 0) None None)
            (mkEnv (mkDatetime 2024 5 17 9 32 0 0) None None)
            (mkRequest [("X-User-Id", "alice")]
               (Json (JObj [("layout", JArr [JObj [("widgetId", JStr "a")]])])))
            (mkRequest [("X-User-Id", "alice")]
               (Json (JObj [("layout", JArr [JObj [("widgetId", JStr "b")];
                                              JObj [("widgetId", JStr "c")]])])))
            (mkRequest [("X-User-Id", "alice")] NotJson)
            "d1" empty_collection
            [JObj [("widgetId", JStr "a")]]
            [JObj [("widgetId", JStr "b")]; JObj [("widgetId", JStr "c")]]
            _ _ _ _ _ _ _))); reflexivity.
Defined.

(** ** Timestamps *)

Lemma serialized_updatedAt_ends_in_Z doc s :
  field "updatedAt" (serialize_dashboard doc) = Some (JStr s) -> ends_in_Z s.
Proof.
  destruct doc as [d|]; [|discriminate].
  cbn -[isoformat String.append]. destruct (updatedAt d) as [t|]; [|discriminate].
  intros H. injection H as <-. exists (isoformat t). reflexivity.
Qed.

(** C9 (as stated, refuted): two PUTs to one key, both answered with
    success.  The clock of the first reads 09:30:00.001500 and the store
    keeps 09:30:00.001000, which is not the reading; the clock of the
    second reads earlier than that, and the second PUT leaves an
    [updatedAt] that is before the previous one. *)
Lemma updatedAt_can_decrease :
  let late := mkDatetime 2024 5 17 9 30 0 1500 in
  let kept := mkDatetime 2024 5 17 9 30 0 1000 in
  let early := mkDatetime 2024 5 17 9 29 59 0 in
  let r := mkRequest [] (Json (JObj [("layout", JArr [])])) in
  let col1 := snd (upsert_dashboard (mkEnv late None None) r "d1" empty_collection) in
  let col2 := snd (upsert_dashboard (mkEnv early None None) r "d1" col1) in
  successful (fst (upsert_dashboard (mkEnv late None None) r "d1" empty_collection)) = true /\
  successful (fst (upsert_dashboard (mkEnv early None None) r "d1" col1)) = true /\
  option_map updatedAt (stored col1 "demo-user" "d1") = Some (Some kept) /\
  kept <> late /\
  option_map updatedAt (stored col2 "demo-user" "d1") = Some (Some early) /\
  Datetime.lt early kept /\ ~ Datetime.le kept early.
Proof.
  cbv zeta. repeat split; try discriminate. intros H. apply H. reflexivity.
Qed.

(** ** Keys do not interfere *)

Lemma upsert_dashboard_other_keys env r d col u' d' :
  (u', d') <> (get_current_user_id r, d) ->
  stored (snd (upsert_dashboard env r d col)) u' d' = stored col u' d'.
Proof.
  intros Hne. rewrite upsert_dashboard_eq. cbv zeta.
  destruct (request_layout r) as [e|v]; [reflexivity|].
  destruct v; try reflexivity.
  destruct (update_one (write_error env) _ _ _ _ _) as [e|[res col']] eqn:U;
    [reflexivity|].
  pose proof (update_one_inr _ _ _ _ _ _ _ _ U) as Hw. rewrite Hw in U.
  destruct (update_one_spec _ _ _ _ _ _ _ U) as (_ & Hother & _).
  destruct (find_one _ _ _ _) as [e|doc]; [|destruct (upserted_id res)];
    cbn [snd]; apply Hother; exact Hne.
Qed.

(** A GET that finds nothing and whose insert goes through. *)
Lemma get_dashboard_inserts env r d col :
  read_error env = None -> write_error env = None ->
  stored col (get_current_user_id r) d = None ->
  snd (get_dashboard env r d col) =
  mkCollection
    (docs col ++ [mkDocument (Some (next_oid col)) (get_current_user_id r) d
                    (Some (JArr [])) (Some (bson_datetime (utcnow env)))])
    (S (next_oid col)).
Proof.
  intros Hr Hw Hs. rewrite get_dashboard_eq. cbv zeta. unfold find_one.
  rewrite Hr, Hw. fold (stored col (get_current_user_id r) d). rewrite Hs.
  rewrite (insert_one_absent col
             (mkDocument None (get_current_user_id r) d (Some (JArr []))
                (Some (utcnow env))) Hs).
  reflexivity.
Qed.

(** A GET writes, if at all, under its own key only. *)
Lemma get_dashboard_other_keys env r d col u' d' :
  (u', d') <> (get_current_user_id r, d) ->
  stored (snd (get_dashboard env r d col)) u' d' = stored col u' d'.
Proof.
  intros Hne. rewrite get_dashboard_eq. cbv zeta. unfold find_one.
  destruct (read_error env) as [e|]; [reflexivity|].
  fold (stored col (get_current_user_id r) d).
  destruct (stored col (get_current_user_id r) d) as [doc|] eqn:S; [reflexivity|].
  destruct (write_error env) as [e|]; [reflexivity|].
  rewrite (insert_one_absent col
             (mkDocument None (get_current_user_id r) d (Some (JArr []))
                (Some (utcnow env))) S).
  cbn [snd userId dashboardId layout updatedAt]. unfold stored. cbn [docs].
  rewrite find_app_one.
  destruct (find (matches u' d') (docs col)); [reflexivity|].
  rewrite (matches_other _ _ u' d' _ Hne (matches_refl _ _ _ _ _)). reflexivity.
Qed.

(** C6: for requests of two distinct identities on one dashboardId, the
    PUT of the first changes neither the document stored for the second
    nor the answer to the second's GET.  When the second identity holds
    no document there and the store is up, its GET answers 200 with a
    document of its own, with empty layout, stores that document under its
    own key, and leaves the first identity's document as the PUT left it. *)
Theorem put_invisible_to_other_identity envA envB rA rB d col :
  let a := get_current_user_id rA in
  let b := get_current_user_id rB in
  let colA := snd (upsert_dashboard envA rA d col) in
  let colB := snd (get_dashboard envB rB d colA) in
  a <> b ->
  stored colA b d = stored col b d /\
  fst (get_dashboard envB rB d colA) = fst (get_dashboard envB rB d col) /\
  (stored col b d = None -> read_error envB = None -> write_error envB = None ->
   fst (get_dashboard envB rB d colA) =
     Respond 200 (dashboard_json b d (JArr []) (utcnow envB)) /\
   (exists oid, stored colB b d =
                  Some (mkDocument oid b d (Some (JArr []))
                          (Some (bson_datetime (utcnow envB))))) /\
   stored colB a d = stored colA a d).
Proof.
  intros a b colA colB Hab.
  assert (Hb : stored colA b d = stored col b d).
  { apply upsert_dashboard_other_keys. fold a. congruence. }
  split; [exact Hb|]. split.
  - rewrite !get_dashboard_outcome. cbv zeta. fold b. rewrite Hb. reflexivity.
  - intros Hn Hr Hw. repeat split.
    + rewrite get_dashboard_outcome. cbv zeta. fold b. rewrite Hr, Hb, Hn, Hw.
      reflexivity.
    + exists (Some (next_oid colA)). unfold colB.
      rewrite get_dashboard_inserts by (try assumption; fold b; congruence).
      unfold stored at 1. cbn [docs]. rewrite find_app_one.
      fold b. change (find (matches b d) (docs colA)) with (stored colA b d).
      rewrite Hb, Hn, matches_refl. reflexivity.
    + apply get_dashboard_other_keys. fold b. congruence.
Qed.

Lemma put_invisible_to_other_identity_witness :
  let tA := mkDatetime 2024 5 17 9 30 0 0 in
  let tB := mkDatetime 2024 5 17 9 31 0 0 in
  let rA := mkRequest [("X-User-Id", "A")]
              (Json (JObj [("layout", JArr [JObj [("widgetId", JStr "w")]])])) in
  let rB := mkRequest [("X-User-Id", "B")] NotJson in
  let colA := snd (upsert_dashboard (mkEnv tA None None) rA "d1" empty_collection) in
  get_current_user_id rA <> get_current_user_id rB /\
  fst (get_dashboard (mkEnv tB None None) rB "d1" colA) =
    Respond 200 (dashboard_json "B" "d1" (JArr []) tB).
Proof.
  cbv zeta. split; [discriminate|].
  refine (proj1 (proj2 (proj2 (put_invisible_to_other_identity
            (mkEnv (mkDatetime 2024 5 17 9 30 0 0) None None)
            (mkEnv (mkDatetime 2024 5 17 9 31 0 0) None None)
            (mkRequest [("X-User-Id", "A")]
               (Json (JObj [("layout", JArr [JObj [("widgetId", JStr "w")]])])))
            (mkRequest [("X-User-Id", "B")] NotJson)
            "d1" empty_collection _)) _ _ _)); try reflexivity.
  discriminate.
Defined.

(** ** The unique index *)

Lemma filter_matches_nil u d (l : list Document) :
  ~ In (u, d) (map doc_key l) -> filter (matches u d) l = [].
Proof.
  induction l as [|x l IH]; simpl; [reflexivity|].
  intros Hn. destruct (matches u d x) eqn:E.
  - apply matches_spec in E. exfalso. apply Hn. left. exact E.
  - apply IH. intros H. apply Hn. right. exact H.
Qed.

Lemma filter_matches_in u d (l : list Document) :
  In (u, d) (map doc_key l) -> 1 <= List.length (filter (matches u d) l).
Proof.
  induction l as [|x l IH]; simpl; [tauto|].
  intros [H|H].
  - apply matches_spec in H. rewrite H. simpl. lia.
  - destruct (matches u d x); simpl; [lia | auto].
Qed.

(** The constraint of the index says that a key has at most one document. *)
Lemma unique_index_count col :
  unique_index col <-> forall u d, count_key col u d <= 1.
Proof.
  unfold unique_index, count_key. destruct col as [l n]. cbn [docs].
  induction l as [|x l IH]; simpl.
  - split; [intros _ u d; lia | intros _; constructor].
  - split.
    + intros H u d. inversion H as [|k ks Hn Hl]; subst.
      destruct (matches u d x) eqn:E; simpl.
      * apply matches_spec in E. rewrite E in Hn.
        rewrite (filter_matches_nil u d l Hn). simpl. lia.
      * apply IH. exact Hl.
    + intros H. constructor.
      * intros Hin. destruct x as [oid u d lay t]. unfold doc_key in Hin at 1.
        cbn [userId dashboardId] in Hin.
        specialize (H u d). rewrite matches_refl in H. simpl in H.
        apply filter_matches_in in Hin. lia.
      * apply IH. intros u d. specialize (H u d).
        destruct (matches u d x); simpl in H; lia.
Qed.

Lemma unique_index_append col x n :
  unique_index col ->
  existsb (matches (userId x) (dashboardId x)) (docs col) = false ->
  unique_index (mkCollection (docs col ++ [x]) n).
Proof.
  unfold unique_index. intros Hu E. cbn [docs].
  rewrite map_app. apply NoDup_app; [exact Hu | repeat constructor; intros [] |].
  intros k Hk [Hk'|[]]. subst k. unfold doc_key in Hk at 1.
  apply filter_matches_in in Hk.
  apply find_none_existsb in E.
  destruct (filter (matches (userId x) (dashboardId x)) (docs col)) as [|y ys] eqn:F;
    [simpl in Hk; lia|].
  assert (Hy : In y (filter (matches (userId x) (dashboardId x)) (docs col)))
    by (rewrite F; left; reflexivity).
  apply filter_In in Hy as [Hy1 Hy2].
  rewrite (find_none _ _ E y Hy1) in Hy2. discriminate.
Qed.

(** The writes of the store keep the constraint, whatever they are asked
    to write: [insert_one] refuses a second document for a key ... *)
Lemma insert_one_unique err col doc doc' col' :
  insert_one err col doc = inr (doc', col') ->
  unique_index col -> unique_index col'.
Proof.
  unfold insert_one. destruct err; [discriminate|].
  destruct (existsb _ _) eqn:E; [discriminate|].
  intros H Hu. inversion H; subst; clear H.
  apply unique_index_append; assumption.
Qed.

(** ... and [update_one] touches no key of a document it updates, and
    inserts only when no document matches. *)
Lemma update_one_unique err col u d l t res col' :
  update_one err col u d l t = inr (res, col') ->
  unique_index col -> unique_index col'.
Proof.
  unfold update_one. destruct err; [discriminate|].
  destruct (existsb _ _) eqn:E; intros H Hu; inversion H; subst; clear H.
  - unfold unique_index. cbn [docs]. rewrite map_update_first; [exact Hu | reflexivity].
  - apply unique_index_append; assumption.
Qed.

Lemma handle_unique c col : unique_index col -> unique_index (snd (handle c col)).
Proof.
  intros Hu. destruct c as [env r d|env r d]; cbn [handle].
  - rewrite get_dashboard_eq. cbv zeta.
    destruct (find_one _ _ _ _) as [e|[doc|]]; try exact Hu.
    destruct (insert_one _ _ _) as [e|[doc' col']] eqn:I; [exact Hu|].
    cbn [snd]. eapply insert_one_unique; eassumption.
  - rewrite upsert_dashboard_eq. cbv zeta.
    destruct (request_layout r) as [e|v]; [exact Hu|].
    destruct v; try exact Hu.
    destruct (update_one _ _ _ _ _ _) as [e|[res col']] eqn:U; [exact Hu|].
    assert (Hu' : unique_index col') by (eapply update_one_unique; eassumption).
    destruct (find_one _ _ _ _) as [e|doc]; [|destruct (upserted_id res)]; exact Hu'.
Qed.

(** Each write a handler sends keeps the constraint of the index. *)
Lemma write_of_handler_unique col col' :
  write_of_handler col col' -> unique_index col -> unique_index col'.
Proof.
  intros [err c u d now doc' c' I | err c u d items now res c' U].
  - eapply insert_one_unique; eassumption.
  - eapply update_one_unique; eassumption.
Qed.

Lemma reachable_concurrently_unique col :
  reachable_concurrently col -> unique_index col.
Proof.
  induction 1 as [|col col' _ IH W].
  - constructor.
  - eapply write_of_handler_unique; eassumption.
Qed.

(** What a handler does to the collection is one of its writes, or
    nothing. *)
Lemma handle_writes c col :
  snd (handle c col) = col \/ write_of_handler col (snd (handle c col)).
Proof.
  destruct c as [env r d|env r d]; cbn [handle].
  - rewrite get_dashboard_eq. cbv zeta.
    destruct (find_one _ _ _ _) as [e|[doc|]]; auto.
    destruct (insert_one _ _ _) as [e|[doc' col']] eqn:I; auto.
    right. cbn [snd]. eapply write_insert_default. exact I.
  - rewrite upsert_dashboard_eq. cbv zeta.
    destruct (request_layout r) as [e|v]; auto.
    destruct v; auto.
    destruct (update_one _ _ _ _ _ _) as [e|[res col']] eqn:U; auto.
    right.
    destruct (find_one _ _ _ _) as [e|doc]; [|destruct (upserted_id res)];
      cbn [snd]; eapply write_upsert; exact U.
Qed.

Lemma handle_reachable_concurrently c col :
  reachable_concurrently col -> reachable_concurrently (snd (handle c col)).
Proof.
  intros Hr. destruct (handle_writes c col) as [E|W].
  - rewrite E. exact Hr.
  - eapply concurrently_write; eassumption.
Qed.

(** The same for a handler whose two store calls have other requests'
    writes between them. *)
Lemma interleaved_reachable_concurrently between env r d col :
  reachable_concurrently col ->
  (forall c, reachable_concurrently c -> reachable_concurrently (between c)) ->
  reachable_concurrently (snd (get_dashboard_interleaved between env r d col)) /\
  reachable_concurrently (snd (upsert_dashboard_interleaved between env r d col)).
Proof.
  intros Hr Hb. split.
  - unfold get_dashboard_interleaved. rewrite get_current_user_id_truthy. cbn [negb].
    destruct (find_one _ _ _ _) as [e|[doc|]]; try exact Hr.
    destruct (insert_one _ _ _) as [e|[doc' col']] eqn:I; cbn [snd].
    + apply Hb, Hr.
    + eapply concurrently_write; [apply Hb, Hr|].
      eapply write_insert_default. exact I.
  - unfold upsert_dashboard_interleaved. rewrite get_current_user_id_truthy.
    cbn [negb].
    destruct (get _ _) as [e|v]; [exact Hr|].
    destruct v; cbn [is_list negb orb]; try exact Hr.
    destruct (update_one _ _ _ _ _ _) as [e|[res col']] eqn:U; [exact Hr|].
    assert (Hr' : reachable_concurrently (between col')).
    { apply Hb. eapply concurrently_write; [exact Hr|].
      eapply write_upsert. exact U. }
    destruct (find_one _ _ _ _) as [e|doc]; exact Hr'.
Qed.

(** C5: every collection the service can reach holds at most one document
    per (userId, dashboardId), also when requests are served concurrently
    and the writes of the handlers reach the store in any order: a GET
    that saw no document may send its insert after another request has
    created one, and it is the unique index, in [insert_one], that keeps
    the second document out.  The property holds of the empty collection;
    every write a handler sends (GET's insert of a default document, PUT's
    upsert) keeps it, and so does every request served alone or with other
    requests between its two store calls.  The handlers do not check it. *)
Theorem one_document_per_key :
  (forall col, reachable_concurrently col -> forall u d, count_key col u d <= 1) /\
  (forall u d, count_key empty_collection u d <= 1) /\
  (forall col col', write_of_handler col col' ->
     (forall u d, count_key col u d <= 1) -> forall u d, count_key col' u d <= 1) /\
  (forall col, reachable col ->
     reachable_concurrently col /\ forall u d, count_key col u d <= 1) /\
  (forall between env r d col,
     reachable_concurrently col ->
     (forall c, reachable_concurrently c -> reachable_concurrently (between c)) ->
     reachable_concurrently (snd (get_dashboard_interleaved between env r d col)) /\
     reachable_concurrently (snd (upsert_dashboard_interleaved between env r d col))) /\
  (forall c col, (forall u d, count_key col u d <= 1) ->
                 forall u d, count_key (snd (handle c col)) u d <= 1).
Proof.
  assert (Hconc : forall col, reachable_concurrently col ->
                              forall u d, count_key col u d <= 1).
  { intros col Hr. apply unique_index_count, reachable_concurrently_unique, Hr. }
  assert (Hseq : forall col, reachable col -> reachable_concurrently col).
  { induction 1 as [|c col Hr IH];
      [constructor | apply handle_reachable_concurrently, IH]. }
  split; [exact Hconc|]. split; [|split; [|split; [|split]]].
  - intros u d. unfold count_key. simpl. lia.
  - intros col col' W H.
    apply unique_index_count, (write_of_handler_unique col col' W), unique_index_count, H.
  - intros col Hr. split; [apply Hseq, Hr | apply Hconc, Hseq, Hr].
  - apply interleaved_reachable_concurrently.
  - intros c col H. apply unique_index_count, handle_unique, unique_index_count, H.
Qed.

Lemma one_document_per_key_witness :
  let t := mkDatetime 2024 5 17 9 30 0 0 in
  let env := mkEnv t None None in
  let r := mkRequest [("X-User-Id", "alice")] NotJson in
  let other := fun c => snd (get_dashboard env r "d1" c) in
  let col := snd (get_dashboard_interleaved other env r "d1" empty_collection) in
  reachable_concurrently col /\ count_key col "alice" "d1" <= 1.
Proof.
  cbv zeta.
  assert (R : reachable_concurrently
    (snd (get_dashboard_interleaved
            (fun c => snd (get_dashboard
                             (mkEnv (mkDatetime 2024 5 17 9 30 0 0) None None)
                             (mkRequest [("X-User-Id", "alice")] NotJson) "d1" c))
            (mkEnv (mkDatetime 2024 5 17 9 30 0 0) None None)
            (mkRequest [("X-User-Id", "alice")] NotJson) "d1" empty_collection))).
  { refine (proj1 (proj1 (proj2 (proj2 (proj2 (proj2 one_document_per_key))))
                     _ _ _ _ empty_collection concurrently_empty _)).
    intros c Hc.
    exact (handle_reachable_concurrently
             (GET (mkEnv (mkDatetime 2024 5 17 9 30 0 0) None None)
                (mkRequest [("X-User-Id", "alice")] NotJson) "d1") c Hc). }
  split; [exact R|].
  exact (proj1 one_document_per_key _ R "alice" "d1").
Defined.

(** * Further properties of the handlers *)

(** ** Outcomes of a PUT *)

(** X1: a PUT with a list under [layout] whose [update_one] raises [e]
    answers 500 with [{error: "Failed to upsert dashboard: " + str(e)}]
    and leaves the collection as it was. *)
Theorem upsert_dashboard_store_failure env r d col items e :
  request_layout r = inr (JArr items) ->
  write_error env = Some e ->
  upsert_dashboard env r d col =
  (Respond 500 (error_body ("Failed to upsert dashboard: " ++ exn_str e)), col).
Proof.
  intros Hl Hw. rewrite upsert_dashboard_eq. cbv zeta. rewrite Hl.
  unfold update_one. rewrite Hw. reflexivity.
Qed.

Lemma upsert_dashboard_store_failure_witness :
  let env := mkEnv (mkDatetime 2024 5 17 9 30 0 0) None
               (Some (Raise "AutoReconnect" "connection closed")) in
  let r := mkRequest [] (Json (JObj [("layout", JArr [JInt 7])])) in
  upsert_dashboard env r "d1" empty_collection =
  (Respond 500 (error_body "Failed to upsert dashboard: connection closed"),
   empty_collection).
Proof.
  cbv zeta.
  apply (upsert_dashboard_store_failure
           (mkEnv (mkDatetime 2024 5 17 9 30 0 0) None
              (Some (Raise "AutoReconnect" "connection closed")))
           (mkRequest [] (Json (JObj [("layout", JArr [JInt 7])])))
           "d1" empty_collection [JInt 7]
           (Raise "AutoReconnect" "connection closed")); reflexivity.
Defined.

(** The PUT handler when the body carries a list and the store is up. *)
Lemma upsert_dashboard_ok env r d col items :
  request_layout r = inr (JArr items) ->
  write_error env = None -> read_error env = None ->
  exists res col',
    update_one None col (get_current_user_id r) d (JArr items) (utcnow env)
      = inr (res, col') /\
    upsert_dashboard env r d col =
      (match upserted_id res with
       | Some _ => Respond 201 (JObj [ ("status", JStr "created");
                     ("dashboard",
                      serialize_dashboard (stored col' (get_current_user_id r) d)) ])
       | None => Respond 200 (JObj [ ("status", JStr "updated");
                     ("dashboard",
                      serialize_dashboard (stored col' (get_current_user_id r) d)) ])
       end, col').
Proof.
  intros Hl Hw Hr. rewrite upsert_dashboard_eq. cbv zeta. rewrite Hl, Hw.
  destruct (update_one None col (get_current_user_id r) d (JArr items) (utcnow env))
    as [e|[res col']] eqn:U.
  { unfold update_one in U. destruct (existsb _ _); discriminate. }
  exists res, col'. split; [reflexivity|].
  unfold find_one. rewrite Hr. fold (stored col' (get_current_user_id r) d).
  destruct (upserted_id res); reflexivity.
Qed.

(** X2: a PUT succeeds (answers 200 or 201) exactly when the body carries
    a list under [layout], of whatever entries and possibly empty, and
    neither the upsert nor the read after it raises. *)
Theorem upsert_dashboard_succeeds_iff env r d col :
  successful (fst (upsert_dashboard env r d col)) = true <->
  (exists items, request_layout r = inr (JArr items)) /\
  write_error env = None /\ read_error env = None.
Proof.
  split.
  - intros Hs.
    destruct (upsert_dashboard_success env r d col Hs)
      as (items & res & col' & Hl & _ & Hw & Hr & _).
    eauto.
  - intros ([items Hl] & Hw & Hr).
    destruct (upsert_dashboard_ok env r d col items Hl Hw Hr) as (res & col' & _ & E).
    rewrite E. destruct (upserted_id res); reflexivity.
Qed.

Lemma upsert_dashboard_succeeds_iff_witness :
  let env := mkEnv (mkDatetime 2024 5 17 9 30 0 0) None None in
  let r := mkRequest [] (Json (JObj [("layout", JArr [])])) in
  successful (fst (upsert_dashboard env r "d1" empty_collection)) = true.
Proof.
  cbv zeta.
  apply (proj2 (upsert_dashboard_succeeds_iff
                  (mkEnv (mkDatetime 2024 5 17 9 30 0 0) None None)
                  (mkRequest [] (Json (JObj [("layout", JArr [])])))
                  "d1" empty_collection)).
  split; [exists []; reflexivity | split; reflexivity].
Defined.

(** X3: the dashboard a successful PUT answers with carries the identity
    of the request, the dashboardId of the path and, as its layout, the
    list the request sent, unchanged. *)
Theorem upsert_dashboard_echoes_layout env r d col items :
  request_layout r = inr (JArr items) ->
  successful (fst (upsert_dashboard env r d col)) = true ->
  exists code status dashboard,
    fst (upsert_dashboard env r d col) =
      Respond code (JObj [("status", JStr status); ("dashboard", dashboard)]) /\
    field "userId" dashboard = Some (JStr (get_current_user_id r)) /\
    field "dashboardId" dashboard = Some (JStr d) /\
    field "layout" dashboard = Some (JArr items).
Proof.
  intros Hl Hs.
  destruct (upsert_dashboard_stores env r d col items Hs Hl) as [oid Hst].
  destruct (upsert_dashboard_success env r d col Hs)
    as (items' & res & col' & _ & _ & _ & _ & E).
  rewrite E in Hst |- *. cbn [fst snd] in *. rewrite Hst.
  destruct (upserted_id res); do 3 eexists; (split; [reflexivity|]);
    repeat split; reflexivity.
Qed.

Lemma upsert_dashboard_echoes_layout_witness :
  let env := mkEnv (mkDatetime 2024 5 17 9 30 0 0) None None in
  let l := [JObj [("widgetId", JStr "a"); ("x", JInt 0)]; JStr "loose"; JNull] in
  let r := mkRequest [("X-User-Id", "alice")] (Json (JObj [("layout", JArr l)])) in
  exists code status dashboard,
    fst (upsert_dashboard env r "d1" empty_collection) =
      Respond code (JObj [("status", JStr status); ("dashboard", dashboard)]) /\
    field "userId" dashboard = Some (JStr "alice") /\
    field "dashboardId" dashboard = Some (JStr "d1") /\
    field "layout" dashboard = Some (JArr l).
Proof.
  cbv zeta.
  apply (upsert_dashboard_echoes_layout
           (mkEnv (mkDatetime 2024 5 17 9 30 0 0) None None)
           (mkRequest [("X-User-Id", "alice")]
              (Json (JObj [("layout",
                 JArr [JObj [("widgetId", JStr "a"); ("x", JInt 0)];
                       JStr "loose"; JNull])])))
           "d1" empty_collection
           [JObj [("widgetId", JStr "a"); ("x", JInt 0)]; JStr "loose"; JNull]);
    reflexivity.
Defined.

(** X4: when the upsert of a PUT goes through and the read after it
    raises, the exception leaves the handler, yet the write stays: the key
    holds the layout of the request. *)
Theorem upsert_dashboard_written_before_read_fails env r d col items e :
  request_layout r = inr (JArr items) ->
  write_error env = None -> read_error env = Some e ->
  fst (upsert_dashboard env r d col) = Unhandled e /\
  exists oid,
    stored (snd (upsert_dashboard env r d col)) (get_current_user_id r) d =
    Some (mkDocument oid (get_current_user_id r) d (Some (JArr items))
            (Some (bson_datetime (utcnow env)))).
Proof.
  intros Hl Hw Hr. rewrite upsert_dashboard_eq. cbv zeta. rewrite Hl, Hw.
  destruct (update_one None col (get_current_user_id r) d (JArr items) (utcnow env))
    as [e'|[res col']] eqn:U.
  { unfold update_one in U. destruct (existsb _ _); discriminate. }
  unfold find_one. rewrite Hr. cbn [fst snd]. split; [reflexivity|].
  exact (proj1 (update_one_spec _ _ _ _ _ _ _ U)).
Qed.

Lemma upsert_dashboard_written_before_read_fails_witness :
  let t := mkDatetime 2024 5 17 9 30 0 0 in
  let env := mkEnv t (Some (Raise "NetworkTimeout" "timed out")) None in
  let r := mkRequest [] (Json (JObj [("layout", JArr [JInt 7])])) in
  fst (upsert_dashboard env r "d1" empty_collection) =
    Unhandled (Raise "NetworkTimeout" "timed out") /\
  exists oid,
    stored (snd (upsert_dashboard env r "d1" empty_collection)) "demo-user" "d1" =
    Some (mkDocument oid "demo-user" "d1" (Some (JArr [JInt 7])) (Some t)).
Proof.
  cbv zeta.
  apply (upsert_dashboard_written_before_read_fails
           (mkEnv (mkDatetime 2024 5 17 9 30 0 0)
              (Some (Raise "NetworkTimeout" "timed out")) None)
           (mkRequest [] (Json (JObj [("layout", JArr [JInt 7])])))
           "d1" empty_collection [JInt 7] (Raise "NetworkTimeout" "timed out"));
    reflexivity.
Defined.

(** X5: the PUT handler takes nothing from the request but the resolved
    identity and the value under [layout]: two requests that agree on
    these have the same outcome and leave the same collection, whatever
    else their bodies and headers carry. *)
Theorem upsert_dashboard_reads_identity_and_layout env r1 r2 d col :
  get_current_user_id r1 = get_current_user_id r2 ->
  request_layout r1 = request_layout r2 ->
  upsert_dashboard env r1 d col = upsert_dashboard env r2 d col.
Proof.
  intros Hu Hl. rewrite !upsert_dashboard_eq. cbv zeta. rewrite Hu, Hl. reflexivity.
Qed.

Lemma upsert_dashboard_reads_identity_and_layout_witness :
  let env := mkEnv (mkDatetime 2024 5 17 9 30 0 0) None None in
  let r1 := mkRequest [("X-User-Id", "alice")] (Json (JObj [("layout", JArr [])])) in
  let r2 := mkRequest [("Accept", "*/*"); ("x-user-id", "alice")]
              (Json (JObj [("userId", JStr "mallory");
                           ("updatedAt", JStr "1999-01-01T00:00:00Z");
                           ("layout", JArr [])])) in
  upsert_dashboard env r1 "d1" empty_collection =
  upsert_dashboard env r2 "d1" empty_collection.
Proof.
  cbv zeta.
  apply (upsert_dashboard_reads_identity_and_layout
           (mkEnv (mkDatetime 2024 5 17 9 30 0 0) None None)
           (mkRequest [("X-User-Id", "alice")] (Json (JObj [("layout", JArr [])])))
           (mkRequest [("Accept", "*/*"); ("x-user-id", "alice")]
              (Json (JObj [("userId", JStr "mallory");
                           ("updatedAt", JStr "1999-01-01T00:00:00Z");
                           ("layout", JArr [])])))
           "d1" empty_collection); reflexivity.
Defined.

(** ** What the answers can be *)

(** What the handlers return: 200, 201, 400 or 500, a GET 200 or 500; a
    400 or 500 they return has a body of the form [{error: msg}] and comes
    from a request that wrote nothing. *)
Lemma returned_answers c col code payload :
  fst (handle c col) = Respond code payload ->
  (code = 200 \/ code = 201 \/ code = 400 \/ code = 500) /\
  (forall env r d, c = GET env r d -> code = 200 \/ code = 500) /\
  (code = 400 \/ code = 500 ->
   (exists msg, payload = error_body msg) /\ snd (handle c col) = col).
Proof.
  assert (R : forall (o : Outcome * Collection) (is_get : bool),
             (is_get = true <-> exists env r d, c = GET env r d) ->
             fst o = Respond code payload ->
             (exists dashboard, o = (Respond 200 dashboard, snd o)) \/
             (is_get = false /\ exists body, o = (Respond 201 body, snd o)) \/
             (is_get = false /\ exists msg, o = (Respond 400 (error_body msg), col)) \/
             (exists msg, o = (Respond 500 (error_body msg), col)) ->
             (code = 200 \/ code = 201 \/ code = 400 \/ code = 500) /\
             (forall env r d, c = GET env r d -> code = 200 \/ code = 500) /\
             (code = 400 \/ code = 500 ->
              (exists msg, payload = error_body msg) /\ snd o = col)).
  { intros o is_get Hg Ho [[x E]|[[Hn [x E]]|[[Hn [x E]]|[x E]]]];
      rewrite E in Ho; cbn [fst] in Ho; injection Ho as <- <-;
      (split; [lia|]); split.
    - intros; lia.
    - intros [K|K]; discriminate K.
    - intros env r d Hc. assert (is_get = true) by (apply Hg; eauto). congruence.
    - intros [K|K]; discriminate K.
    - intros env r d Hc. assert (is_get = true) by (apply Hg; eauto). congruence.
    - intros _. rewrite E. cbn [snd]. eauto.
    - intros; lia.
    - intros _. rewrite E. cbn [snd]. eauto. }
  destruct c as [env r d|env r d]; cbn [handle].
  - intros Ho. apply (R (get_dashboard env r d col) true); [split; eauto | exact Ho |].
    clear R. revert Ho. rewrite get_dashboard_eq. cbv zeta.
    destruct (find_one _ _ _ _) as [e|[doc|]]; cbn [fst snd].
    + discriminate.
    + intros _. left. eexists. reflexivity.
    + destruct (insert_one _ _ _) as [e|[doc' col']]; cbn [fst snd]; intros _.
      * right. right. right. eexists. reflexivity.
      * left. eexists. reflexivity.
  - intros Ho. apply (R (upsert_dashboard env r d col) false);
      [split; [discriminate | intros (env' & r' & d' & K); discriminate K]
      | exact Ho |].
    clear R. revert Ho. rewrite upsert_dashboard_eq. cbv zeta.
    destruct (request_layout r) as [e|v]; [discriminate|].
    destruct v;
      try (intros _; right; right; left; split; [reflexivity | eexists; reflexivity]).
    destruct (update_one _ _ _ _ _ _) as [e|[res col']]; cbn [fst snd].
    + intros _. right. right. right. eexists. reflexivity.
    + destruct (find_one _ _ _ _) as [e|doc]; [discriminate|].
      destruct (upserted_id res); cbn [fst snd]; intros _.
      * right. left. split; [reflexivity | eexists; reflexivity].
      * left. eexists. reflexivity.
Qed.

(** X6: a dashboard handler either returns an answer or lets an exception
    leave it, which the framework then answers itself, without the
    [{error: msg}] body.  An answer the handler returns has status 200,
    201, 400 or 500 (200 or 500 for a GET); a 400 or 500 it returns has a
    body [{error: msg}] and the request wrote nothing.  An exception that
    leaves the handler is the one [find_one] raised, or the
    [AttributeError] of [data.get]: with the latter, and in a GET, nothing
    was written; in a PUT whose read after the upsert raises, the layout
    of the request is already stored. *)
Theorem answers_of_the_handlers c col :
  match fst (handle c col) with
  | Respond code payload =>
      (code = 200 \/ code = 201 \/ code = 400 \/ code = 500) /\
      (forall env r d, c = GET env r d -> code = 200 \/ code = 500) /\
      (code = 400 \/ code = 500 ->
       (exists msg, payload = error_body msg) /\ snd (handle c col) = col)
  | Unhandled e =>
      match c with
      | GET env r d => read_error env = Some e /\ snd (handle c col) = col
      | PUT env r d =>
          (request_layout r = inl e /\ snd (handle c col) = col) \/
          (read_error env = Some e /\
           exists items oid,
             request_layout r = inr (JArr items) /\
             stored (snd (handle c col)) (get_current_user_id r) d =
             Some (mkDocument oid (get_current_user_id r) d (Some (JArr items))
                     (Some (bson_datetime (utcnow env)))))
      end
  end.
Proof.
  destruct (fst (handle c col)) as [code payload|e] eqn:E.
  - exact (returned_answers c col code payload E).
  - destruct c as [env r d|env r d]; cbn [handle] in *.
    + revert E. rewrite get_dashboard_eq. cbv zeta. unfold find_one.
      destruct (read_error env) as [e'|].
      * cbn [fst snd]. intros E. injection E as <-. split; reflexivity.
      * destruct (find _ _) as [doc|]; [discriminate|].
        destruct (insert_one _ _ _) as [e'|[doc' col']]; discriminate.
    + revert E. rewrite upsert_dashboard_eq. cbv zeta.
      destruct (request_layout r) as [e'|v] eqn:L.
      * cbn [fst snd]. intros E. injection E as <-. left. split; reflexivity.
      * destruct v; try discriminate.
        destruct (update_one (write_error env) _ _ _ _ _) as [e'|[res col']] eqn:U;
          [discriminate|].
        pose proof (update_one_inr _ _ _ _ _ _ _ _ U) as Hw. rewrite Hw in U.
        destruct (update_one_spec _ _ _ _ _ _ _ U) as ([oid Ho] & _ & _).
        unfold find_one. destruct (read_error env) as [e'|].
        -- cbn [fst snd]. intros E. injection E as <-. right.
           split; [reflexivity|]. exists items, oid. split; [reflexivity | exact Ho].
        -- destruct (upserted_id res); discriminate.
Qed.

Lemma answers_of_the_handlers_witness :
  let env := mkEnv (mkDatetime 2024 5 17 9 30 0 0)
               (Some (Raise "NetworkTimeout" "timed out")) None in
  let r := mkRequest [] (Json (JObj [("layout", JArr [JInt 7])])) in
  (request_layout r = inl (Raise "NetworkTimeout" "timed out") /\
   snd (handle (PUT env r "d1") empty_collection) = empty_collection) \/
  (read_error env = Some (Raise "NetworkTimeout" "timed out") /\
   exists items oid,
     request_layout r = inr (JArr items) /\
     stored (snd (handle (PUT env r "d1") empty_collection)) "demo-user" "d1" =
     Some (mkDocument oid "demo-user" "d1" (Some (JArr items))
             (Some (bson_datetime (utcnow env))))).
Proof.
  cbv zeta.
  exact (answers_of_the_handlers
           (PUT (mkEnv (mkDatetime 2024 5 17 9 30 0 0)
                   (Some (Raise "NetworkTimeout" "timed out")) None)
              (mkRequest [] (Json (JObj [("layout", JArr [JInt 7])]))) "d1")
           empty_collection).
Defined.

(** ** Reads do not write over documents *)

Lemma key_eq_dec (k1 k2 : string * string) : {k1 = k2} + {k1 <> k2}.
Proof. decide equality; apply string_dec. Qed.

Lemma get_dashboard_on_stored env r d col doc :
  stored col (get_current_user_id r) d = Some doc ->
  snd (get_dashboard env r d col) = col.
Proof.
  intros Hs. rewrite get_dashboard_eq. cbv zeta. unfold find_one.
  destruct (read_error env); [reflexivity|].
  fold (stored col (get_current_user_id r) d). rewrite Hs. reflexivity.
Qed.

(** X7: a GET changes no stored document, of its own key or of any other:
    whatever was stored under a key before the GET is stored there after
    it, with the same layout and the same [updatedAt].  On a key that
    holds a document, a GET whose lookup returns it answers 200 with that
    document and leaves the collection as it was, whether or not the store
    would take a write. *)
Theorem get_dashboard_changes_no_document env r d col :
  (forall u' d' doc, stored col u' d' = Some doc ->
     stored (snd (get_dashboard env r d col)) u' d' = Some doc) /\
  (forall doc, find_one (read_error env) col (get_current_user_id r) d = inr (Some doc) ->
     get_dashboard env r d col = (Respond 200 (serialize_dashboard (Some doc)), col)).
Proof.
  split.
  - intros u' d' doc Hs.
    destruct (key_eq_dec (u', d') (get_current_user_id r, d)) as [E|E].
    + injection E as -> ->. rewrite (get_dashboard_on_stored env r d col doc Hs).
      exact Hs.
    + rewrite get_dashboard_other_keys by exact E. exact Hs.
  - intros doc Hf. rewrite get_dashboard_eq. cbv zeta. rewrite Hf. reflexivity.
Qed.

Lemma get_dashboard_changes_no_document_witness :
  let t := mkDatetime 2024 5 17 9 30 0 0 in
  let doc := mkDocument (Some 0) "alice" "d1" (Some (JArr [JInt 7])) (Some t) in
  let col := mkCollection [doc] 1 in
  let env := mkEnv (mkDatetime 2024 5 18 0 0 0 0) None (Some (Raise "NotPrimaryError" "read only")) in
  stored (snd (get_dashboard env (mkRequest [("X-User-Id", "bob")] NotJson) "d1" col))
    "alice" "d1" = Some doc.
Proof.
  cbv zeta.
  apply (proj1 (get_dashboard_changes_no_document
           (mkEnv (mkDatetime 2024 5 18 0 0 0 0) None
              (Some (Raise "NotPrimaryError" "read only")))
           (mkRequest [("X-User-Id", "bob")] NotJson) "d1"
           (mkCollection
              [mkDocument (Some 0) "alice" "d1" (Some (JArr [JInt 7]))
                 (Some (mkDatetime 2024 5 17 9 30 0 0))] 1))).
  reflexivity.
Defined.

(** A GET that answered 200 leaves a document under its key. *)
Lemma get_dashboard_200_stores env r d col :
  status_of (fst (get_dashboard env r d col)) = Some 200 ->
  exists doc, stored (snd (get_dashboard env r d col)) (get_current_user_id r) d = Some doc.
Proof.
  rewrite get_dashboard_eq. cbv zeta. unfold find_one.
  destruct (read_error env) as [e|] eqn:Hr; [discriminate|].
  fold (stored col (get_current_user_id r) d).
  destruct (stored col (get_current_user_id r) d) as [doc|] eqn:S.
  - intros _. exists doc. exact S.
  - destruct (write_error env) as [e|] eqn:Hw; [discriminate|].
    rewrite (insert_one_absent col
               (mkDocument None (get_current_user_id r) d (Some (JArr []))
                  (Some (utcnow env))) S).
    intros _. cbn [fst snd userId dashboardId layout updatedAt].
    eexists. unfold stored. cbn [docs]. rewrite find_app_one.
    change (find (matches (get_current_user_id r) d) (docs col))
      with (stored col (get_current_user_id r) d).
    rewrite S, matches_refl. reflexivity.
Qed.

(** X8: once a GET has answered 200, a later GET of the same identity on
    the same dashboardId is a pure read: it answers 200 with the stored
    document and adds nothing to the collection. *)
Theorem get_dashboard_twice env1 env2 r1 r2 d col :
  let col1 := snd (get_dashboard env1 r1 d col) in
  get_current_user_id r2 = get_current_user_id r1 ->
  status_of (fst (get_dashboard env1 r1 d col)) = Some 200 ->
  read_error env2 = None ->
  exists doc,
    stored col1 (get_current_user_id r1) d = Some doc /\
    get_dashboard env2 r2 d col1 = (Respond 200 (serialize_dashboard (Some doc)), col1).
Proof.
  intros col1 Hu H200 Hr.
  destruct (get_dashboard_200_stores env1 r1 d col H200) as [doc Hd].
  fold col1 in Hd. exists doc. split; [exact Hd|].
  rewrite get_dashboard_eq. cbv zeta. rewrite Hu. unfold find_one. rewrite Hr.
  fold (stored col1 (get_current_user_id r1) d). rewrite Hd. reflexivity.
Qed.

Lemma get_dashboard_twice_witness :
  let t1 := mkDatetime 2024 5 17 9 30 0 0 in
  let t2 := mkDatetime 2024 5 17 9 31 0 0 in
  let r := mkRequest [] NotJson in
  let col1 := snd (get_dashboard (mkEnv t1 None None) r "abc" empty_collection) in
  exists doc,
    stored col1 "demo-user" "abc" = Some doc /\
    get_dashboard (mkEnv t2 None None) r "abc" col1 =
      (Respond 200 (serialize_dashboard (Some doc)), col1).
Proof.
  cbv zeta.
  apply (get_dashboard_twice
           (mkEnv (mkDatetime 2024 5 17 9 30 0 0) None None)
           (mkEnv (mkDatetime 2024 5 17 9 31 0 0) None None)
           (mkRequest [] NotJson) (mkRequest [] NotJson) "abc" empty_collection);
    reflexivity.
Defined.

(** ** Sequences of requests *)

Lemma handle_other_keys c col u d :
  key_of c <> (u, d) -> stored (snd (handle c col)) u d = stored col u d.
Proof.
  destruct c as [env r d'|env r d']; cbn [handle key_of]; intros Hne.
  - apply get_dashboard_other_keys. congruence.
  - apply upsert_dashboard_other_keys. congruence.
Qed.

Lemma upsert_dashboard_keeps_own_key env r d col :
  stored col (get_current_user_id r) d <> None ->
  stored (snd (upsert_dashboard env r d col)) (get_current_user_id r) d <> None.
Proof.
  intros Hs. rewrite upsert_dashboard_eq. cbv zeta.
  destruct (request_layout r) as [e|v]; [exact Hs|].
  destruct v; try exact Hs.
  destruct (update_one (write_error env) _ _ _ _ _) as [e|[res col']] eqn:U;
    [exact Hs|].
  pose proof (update_one_inr _ _ _ _ _ _ _ _ U) as Hw. rewrite Hw in U.
  destruct (update_one_spec _ _ _ _ _ _ _ U) as ([oid Ho] & _ & _).
  destruct (find_one _ _ _ _) as [e|doc]; [|destruct (upserted_id res)];
    cbn [snd]; rewrite Ho; discriminate.
Qed.

Lemma handle_keeps_keys c col u d :
  stored col u d <> None -> stored (snd (handle c col)) u d <> None.
Proof.
  intros Hs. destruct (key_eq_dec (key_of c) (u, d)) as [E|E].
  - destruct c as [env r d'|env r d']; cbn [handle key_of] in *;
      injection E as <- <-.
    + destruct (stored col (get_current_user_id r) d') as [doc|] eqn:S;
        [|contradiction].
      rewrite (get_dashboard_on_stored env r d' col doc S). rewrite S. discriminate.
    + apply upsert_dashboard_keeps_own_key. exact Hs.
  - rewrite handle_other_keys by exact E. exact Hs.
Qed.

Lemma handle_length c col :
  List.length (docs col) <= List.length (docs (snd (handle c col))) <=
  S (List.length (docs col)).
Proof.
  destruct c as [env r d|env r d]; cbn [handle].
  - rewrite get_dashboard_eq. cbv zeta.
    destruct (find_one _ _ _ _) as [e|[doc|]]; cbn [snd]; try lia.
    unfold insert_one. destruct (write_error env); cbn [snd]; try lia.
    destruct (existsb _ _); cbn [snd docs]; try lia.
    rewrite length_app. simpl. lia.
  - rewrite upsert_dashboard_eq. cbv zeta.
    destruct (request_layout r) as [e|v]; cbn [snd]; try lia.
    destruct v; cbn [snd]; try lia.
    destruct (update_one (write_error env) _ _ _ _ _) as [e|[res col']] eqn:U;
      cbn [snd]; try lia.
    pose proof (update_one_inr _ _ _ _ _ _ _ _ U) as Hw. rewrite Hw in U.
    destruct (update_one_spec _ _ _ _ _ _ _ U) as (_ & _ & [(_ & _ & L)|(_ & _ & L)]);
      (destruct (find_one _ _ _ _) as [e|doc]; [|destruct (upserted_id res)]);
      cbn [snd]; lia.
Qed.

(** X9: requests touch their own key only.  Through any sequence of GETs
    and PUTs none of which is on (userId, dashboardId), be it for another
    identity or for another dashboardId, the document stored under that
    key stays the same, and a key that held none holds none. *)
Theorem other_requests_leave_the_key cs col u d :
  Forall (fun c => key_of c <> (u, d)) cs ->
  stored (run cs col) u d = stored col u d.
Proof.
  intros H. revert col. induction H as [|c cs Hc _ IH]; intros col; cbn [run].
  - reflexivity.
  - rewrite IH. apply handle_other_keys. exact Hc.
Qed.

Lemma other_requests_leave_the_key_witness :
  let t := mkDatetime 2024 5 17 9 30 0 0 in
  let env := mkEnv t None None in
  let put u l := PUT env (mkRequest [("X-User-Id", u)] (Json (JObj [("layout", JArr l)]))) in
  let col := snd (handle (put "alice" [JInt 1] "d1") empty_collection) in
  let cs := [put "bob" [JInt 2] "d1"; put "alice" [JInt 3] "d2";
             GET env (mkRequest [] NotJson) "d1"] in
  stored (run cs col) "alice" "d1" = stored col "alice" "d1".
Proof.
  cbv zeta.
  apply other_requests_leave_the_key.
  repeat constructor; discriminate.
Defined.

Lemma run_keeps_keys cs col u d :
  stored col u d <> None -> stored (run cs col) u d <> None.
Proof.
  revert col. induction cs as [|c cs IH]; intros col Hs; cbn [run].
  - exact Hs.
  - apply IH, handle_keeps_keys, Hs.
Qed.

(** X10: nothing is ever deleted.  A key that holds a document holds one
    after any sequence of requests, the number of documents never goes
    down, and each request adds at most one. *)
Theorem documents_are_never_removed cs col :
  (forall u d, stored col u d <> None -> stored (run cs col) u d <> None) /\
  List.length (docs col) <= List.length (docs (run cs col)) <=
    List.length (docs col) + List.length cs.
Proof.
  split.
  - intros u d. apply run_keeps_keys.
  - revert col. induction cs as [|c cs IH]; intros col; cbn [run].
    + simpl. lia.
    + specialize (IH (snd (handle c col))).
      pose proof (handle_length c col). simpl. lia.
Qed.

Lemma documents_are_never_removed_witness :
  let t := mkDatetime 2024 5 17 9 30 0 0 in
  let col := mkCollection
               [mkDocument (Some 0) "alice" "d1" (Some (JArr [])) (Some t)] 1 in
  let cs := [PUT (mkEnv t None None) (mkRequest [("X-User-Id", "alice")] NotJson) "d1";
             GET (mkEnv t None None) (mkRequest [("X-User-Id", "alice")] NotJson) "d1";
             PUT (mkEnv t None None)
               (mkRequest [("X-User-Id", "alice")] (Json (JObj [("layout", JArr [])]))) "d1"] in
  stored (run cs col) "alice" "d1" <> None.
Proof.
  cbv zeta.
  apply (proj1 (documents_are_never_removed _ _)).
  discriminate.
Defined.

Lemma handle_success_stores c col :
  successful (fst (handle c col)) = true ->
  stored (snd (handle c col)) (fst (key_of c)) (snd (key_of c)) <> None.
Proof.
  destruct c as [env r d|env r d]; cbn [handle key_of fst snd]; intros Hs.
  - assert (H200 : status_of (fst (get_dashboard env r d col)) = Some 200).
    { revert Hs. rewrite get_dashboard_eq. cbv zeta.
      destruct (find_one _ _ _ _) as [e|[doc|]]; cbn [fst]; try discriminate;
        try reflexivity.
      destruct (insert_one _ _ _) as [e|[doc' col']]; cbn [fst];
        [discriminate | reflexivity]. }
    destruct (get_dashboard_200_stores env r d col H200) as [doc Hd].
    rewrite Hd. discriminate.
  - destruct (upsert_dashboard_success env r d col Hs)
      as (items & _ & _ & Hl & _).
    destruct (upsert_dashboard_stores env r d col items Hs Hl) as [oid Ho].
    rewrite Ho. discriminate.
Qed.

(** X11: once a GET or a PUT on a key has succeeded, every later PUT on
    that key that succeeds answers 200 with status "updated", never 201
    "created", whatever requests were served in between, and adds no
    document. *)
Theorem put_after_success_updates c cs env r d col :
  let col' := run cs (snd (handle c col)) in
  successful (fst (handle c col)) = true ->
  key_of c = (get_current_user_id r, d) ->
  successful (fst (upsert_dashboard env r d col')) = true ->
  (exists dashboard,
     fst (upsert_dashboard env r d col') =
     Respond 200 (JObj [("status", JStr "updated"); ("dashboard", dashboard)])) /\
  List.length (docs (snd (upsert_dashboard env r d col'))) = List.length (docs col').
Proof.
  intros col' Hc Hk Hs.
  assert (Hst : stored col' (get_current_user_id r) d <> None).
  { apply run_keeps_keys.
    pose proof (handle_success_stores c col Hc) as H. rewrite Hk in H. exact H. }
  destruct (upsert_dashboard_success env r d col' Hs)
    as (items & res & col'' & _ & U & _ & _ & E).
  rewrite E. cbn [fst snd].
  destruct (update_one_spec _ _ _ _ _ _ _ U)
    as (_ & _ & [(_ & Hn & _) | (Ho & _ & Hl)]); [contradiction|].
  rewrite Ho. split; [eexists; reflexivity | exact Hl].
Qed.

Lemma put_after_success_updates_witness :
  let t := mkDatetime 2024 5 17 9 30 0 0 in
  let env := mkEnv t None None in
  let r := mkRequest [] (Json (JObj [("layout", JArr [JObj [("widgetId", JStr "w1")]])])) in
  let col' := run [GET env (mkRequest [("X-User-Id", "bob")] NotJson) "abc"]
                (snd (handle (GET env (mkRequest [] NotJson) "abc") empty_collection)) in
  exists dashboard,
    fst (upsert_dashboard env r "abc" col') =
    Respond 200 (JObj [("status", JStr "updated"); ("dashboard", dashboard)]).
Proof.
  cbv zeta.
  apply (proj1 (put_after_success_updates
           (GET (mkEnv (mkDatetime 2024 5 17 9 30 0 0) None None)
              (mkRequest [] NotJson) "abc")
           [GET (mkEnv (mkDatetime 2024 5 17 9 30 0 0) None None)
              (mkRequest [("X-User-Id", "bob")] NotJson) "abc"]
           (mkEnv (mkDatetime 2024 5 17 9 30 0 0) None None)
           (mkRequest [] (Json (JObj [("layout", JArr [JObj [("widgetId", JStr "w1")]])])))
           "abc" empty_collection eq_refl eq_refl eq_refl)).
Defined.

(** ** The fallback identity *)

(** X12: a request without [X-User-Id], or with an empty one, acts as the
    user "demo-user": what it PUTs is what a request that names
    "demo-user" in the header GETs, on the same dashboardId. *)
Theorem anonymous_is_demo_user envA envB rA rB d col items :
  let colA := snd (upsert_dashboard envA rA d col) in
  headers_get (headers rA) "X-User-Id" = None \/
    headers_get (headers rA) "X-User-Id" = Some "" ->
  headers_get (headers rB) "X-User-Id" = Some "demo-user" ->
  request_layout rA = inr (JArr items) ->
  successful (fst (upsert_dashboard envA rA d col)) = true ->
  read_error envB = None ->
  exists dashboard,
    get_dashboard envB rB d colA = (Respond 200 dashboard, colA) /\
    field "userId" dashboard = Some (JStr "demo-user") /\
    field "layout" dashboard = Some (JArr items).
Proof.
  intros colA HA HB Hl Hs Hr.
  assert (Ha : get_current_user_id rA = "demo-user").
  { unfold get_current_user_id. destruct HA as [-> | ->]; reflexivity. }
  assert (Hb : get_current_user_id rB = "demo-user").
  { unfold get_current_user_id. rewrite HB. reflexivity. }
  destruct (upsert_dashboard_stores envA rA d col items Hs Hl) as [oid Hst].
  fold colA in Hst. rewrite Ha in Hst.
  eexists. split; [|split].
  - rewrite get_dashboard_eq. cbv zeta. rewrite Hb. unfold find_one. rewrite Hr.
    fold (stored colA "demo-user" d). rewrite Hst. reflexivity.
  - reflexivity.
  - reflexivity.
Qed.

Lemma anonymous_is_demo_user_witness :
  let t := mkDatetime 2024 5 17 9 30 0 0 in
  let rA := mkRequest [("Accept", "*/*")] (Json (JObj [("layout", JArr [JInt 7])])) in
  let rB := mkRequest [("X-USER-ID", "demo-user")] NotJson in
  let colA := snd (upsert_dashboard (mkEnv t None None) rA "d1" empty_collection) in
  exists dashboard,
    get_dashboard (mkEnv t None None) rB "d1" colA = (Respond 200 dashboard, colA) /\
    field "userId" dashboard = Some (JStr "demo-user") /\
    field "layout" dashboard = Some (JArr [JInt 7]).
Proof.
  cbv zeta.
  apply (anonymous_is_demo_user
           (mkEnv (mkDatetime 2024 5 17 9 30 0 0) None None)
           (mkEnv (mkDatetime 2024 5 17 9 30 0 0) None None)
           (mkRequest [("Accept", "*/*")] (Json (JObj [("layout", JArr [JInt 7])])))
           (mkRequest [("X-USER-ID", "demo-user")] NotJson)
           "d1" empty_collection [JInt 7]); try reflexivity.
  left. reflexivity.
Defined.

(** ** Documents of a collection only the service wrote *)

Lemma Forall_update_first {A : Type} (P : A -> Prop) (p : A -> bool) (f : A -> A)
    (l : list A) :
  (forall x, P x -> P (f x)) -> Forall P l -> Forall P (update_first p f l).
Proof.
  intros Hf H. induction H as [|x l Hx Hl IH]; simpl; [constructor|].
  destruct (p x); constructor; auto.
Qed.

Lemma handle_written_by_service c col :
  Forall written_by_service (docs col) ->
  Forall written_by_service (docs (snd (handle c col))).
Proof.
  intros H. destruct c as [env r d|env r d]; cbn [handle].
  - rewrite get_dashboard_eq. cbv zeta.
    destruct (find_one _ _ _ _) as [e|[doc|]]; try exact H.
    unfold insert_one. destruct (write_error env); [exact H|].
    destruct (existsb _ _); [exact H|]. cbn [snd docs].
    apply Forall_app. split; [exact H|]. constructor; [|constructor].
    repeat split; eexists; reflexivity.
  - rewrite upsert_dashboard_eq. cbv zeta.
    destruct (request_layout r) as [e|v]; [exact H|].
    destruct v; try exact H.
    assert (H' : forall res col',
               update_one (write_error env) col (get_current_user_id r) d
                 (JArr items) (utcnow env) = inr (res, col') ->
               Forall written_by_service (docs col')).
    { unfold update_one. destruct (write_error env); [discriminate|].
      destruct (existsb _ _); intros res col' E; inversion E; subst; cbn [docs].
      - apply Forall_update_first; [|exact H].
        intros x (Hid & _ & _). repeat split; [exact Hid | |]; eexists; reflexivity.
      - apply Forall_app. split; [exact H|]. constructor; [|constructor].
        repeat split; eexists; reflexivity. }
    destruct (update_one _ _ _ _ _ _) as [e|[res col']]; [exact H|].
    specialize (H' res col' eq_refl).
    destruct (find_one _ _ _ _) as [e|doc]; [|destruct (upserted_id res)]; exact H'.
Qed.

(** X13: in a collection the service has built from nothing, every
    document has its [_id], a list as layout and an [updatedAt]; so every
    200 answer of a GET on such a collection carries a layout that is a
    list and an [updatedAt] that is a string ending in "Z", never null. *)
Theorem reachable_documents_are_complete col :
  reachable col ->
  Forall written_by_service (docs col) /\
  (forall env r d payload,
     fst (get_dashboard env r d col) = Respond 200 payload ->
     exists items s,
       field "layout" payload = Some (JArr items) /\
       field "updatedAt" payload = Some (JStr s) /\ ends_in_Z s).
Proof.
  intros Hr.
  assert (W : Forall written_by_service (docs col)).
  { induction Hr as [|c col Hr IH]; [constructor | apply handle_written_by_service, IH]. }
  split; [exact W|].
  intros env r d payload. rewrite get_dashboard_outcome. cbv zeta.
  destruct (read_error env); [discriminate|].
  destruct (stored col (get_current_user_id r) d) as [doc|] eqn:S.
  - intros E. injection E as <-.
    apply find_some in S as [Hin _].
    rewrite Forall_forall in W. destruct (W doc Hin) as (_ & [items Hl] & [t Ht]).
    exists items, (isoformat t ++ "Z")%string.
    unfold serialize_dashboard, field. cbn -[isoformat String.append].
    rewrite Hl, Ht. repeat split. exists (isoformat t). reflexivity.
  - destruct (write_error env); [discriminate|].
    intros E. injection E as <-.
    exists [], (isoformat (utcnow env) ++ "Z")%string.
    repeat split. exists (isoformat (utcnow env)). reflexivity.
Qed.

Lemma reachable_documents_are_complete_witness :
  let t := mkDatetime 2024 5 17 9 30 0 0 in
  let r := mkRequest [] (Json (JObj [("layout", JArr [JInt 7])])) in
  let col := snd (handle (PUT (mkEnv t None None) r "d1") empty_collection) in
  Forall written_by_service (docs col).
Proof.
  cbv zeta.
  apply (proj1 (reachable_documents_are_complete _
           (reachable_step
              (PUT (mkEnv (mkDatetime 2024 5 17 9 30 0 0) None None)
                 (mkRequest [] (Json (JObj [("layout", JArr [JInt 7])]))) "d1")
              empty_collection reachable_empty))).
Defined.

(** ** The text of [updatedAt] *)

Lemma length_append (s1 s2 : string) :
  String.length (s1 ++ s2) = String.length s1 + String.length s2.
Proof. induction s1 as [|c s1 IH]; simpl; [reflexivity | now rewrite IH]. Qed.

Lemma length_zero_padded w n : String.length (zero_padded w n) = w.
Proof.
  revert n. induction w as [|w IH]; intros n; [reflexivity|].
  cbn [zero_padded]. rewrite length_append, IH. simpl. lia.
Qed.

Lemma length_isoformat t :
  String.length (isoformat t) = if Nat.eqb (microsecond t) 0 then 19 else 26.
Proof.
  unfold isoformat. rewrite !length_append, !length_zero_padded.
  destruct (Nat.eqb (microsecond t) 0); [reflexivity|].
  rewrite length_append, length_zero_padded. reflexivity.
Qed.

(** X14: the [updatedAt] text of a serialized document is the ISO form of
    the stored time followed by "Z": 20 characters when the time has no
    microseconds, 27 when it has, the fraction being left out only when it
    is zero. *)
Theorem serialized_updatedAt_length doc t s :
  updatedAt doc = Some t ->
  field "updatedAt" (serialize_dashboard (Some doc)) = Some (JStr s) ->
  s = (isoformat t ++ "Z")%string /\
  String.length s = if Nat.eqb (microsecond t) 0 then 20 else 27.
Proof.
  intros Ht. unfold serialize_dashboard, field. cbn -[isoformat String.append].
  rewrite Ht. intros E.
  assert (Hs : s = (isoformat t ++ "Z")%string) by congruence.
  split; [exact Hs|]. rewrite Hs.
  rewrite length_append, length_isoformat.
  destruct (Nat.eqb (microsecond t) 0); reflexivity.
Qed.

Lemma serialized_updatedAt_length_witness :
  let t := mkDatetime 2024 5 17 9 30 0 1500 in
  let doc := mkDocument (Some 0) "alice" "d1" (Some (JArr [])) (Some t) in
  "2024-05-17T09:30:00.001500Z" = (isoformat t ++ "Z")%string /\
  String.length "2024-05-17T09:30:00.001500Z" = 27.
Proof.
  cbv zeta.
  apply (serialized_updatedAt_length
           (mkDocument (Some 0) "alice" "d1" (Some (JArr []))
              (Some (mkDatetime 2024 5 17 9 30 0 1500)))
           (mkDatetime 2024 5 17 9 30 0 1500)
           "2024-05-17T09:30:00.001500Z"); reflexivity.
Defined.

(** ** Requests served between the two store calls of a handler *)

(** With nothing in between, the interleaved handlers are the handlers. *)
Lemma interleaved_with_nothing env r d col :
  get_dashboard_interleaved (fun c => c) env r d col = get_dashboard env r d col /\
  upsert_dashboard_interleaved (fun c => c) env r d col = upsert_dashboard env r d col.
Proof. split; reflexivity. Qed.

(** X15: a GET that found no document, while another request put one
    under the key before the GET's insert, does not add a second one: the
    unique index refuses the insert, and the GET answers 500 with
    "Failed to create default dashboard: " followed by the text of the
    duplicate-key error, although the dashboard now exists. *)
Theorem get_dashboard_loses_the_race between env r d col :
  let u := get_current_user_id r in
  read_error env = None -> write_error env = None ->
  stored col u d = None ->
  stored (between col) u d <> None ->
  get_dashboard_interleaved between env r d col =
  (Respond 500
     (error_body ("Failed to create default dashboard: " ++ exn_str duplicate_key_error)),
   between col).
Proof.
  intros u Hr Hw Hn Hb. unfold get_dashboard_interleaved.
  rewrite get_current_user_id_truthy. cbn [negb]. fold u.
  unfold find_one. rewrite Hr. fold (stored col u d). rewrite Hn.
  unfold insert_one. rewrite Hw. cbn [userId dashboardId].
  destruct (existsb (matches u d) (docs (between col))) eqn:E; [reflexivity|].
  apply stored_none_existsb in E. contradiction.
Qed.

Lemma get_dashboard_loses_the_race_witness :
  let t := mkDatetime 2024 5 17 9 30 0 0 in
  let env := mkEnv t None None in
  let r := mkRequest [("X-User-Id", "alice")] NotJson in
  let other := fun c => snd (get_dashboard env r "d1" c) in
  get_dashboard_interleaved other env r "d1" empty_collection =
  (Respond 500
     (error_body ("Failed to create default dashboard: " ++ exn_str duplicate_key_error)),
   mkCollection [mkDocument (Some 0) "alice" "d1" (Some (JArr [])) (Some t)] 1).
Proof.
  cbv zeta.
  apply (get_dashboard_loses_the_race
           (fun c => snd (get_dashboard (mkEnv (mkDatetime 2024 5 17 9 30 0 0) None None)
                            (mkRequest [("X-User-Id", "alice")] NotJson) "d1" c))
           (mkEnv (mkDatetime 2024 5 17 9 30 0 0) None None)
           (mkRequest [("X-User-Id", "alice")] NotJson) "d1" empty_collection);
    try reflexivity.
  discriminate.
Defined.

(** X16: the unique index holds through interleavings: if the requests
    served between the two store calls of a handler keep it, so does the
    handler, GET or PUT, whatever its lookup had seen. *)
Theorem unique_index_under_interleaving between env r d col :
  unique_index col ->
  (forall c, unique_index c -> unique_index (between c)) ->
  unique_index (snd (get_dashboard_interleaved between env r d col)) /\
  unique_index (snd (upsert_dashboard_interleaved between env r d col)).
Proof.
  intros Hu Hb. split.
  - unfold get_dashboard_interleaved. rewrite get_current_user_id_truthy. cbn [negb].
    destruct (find_one _ _ _ _) as [e|[doc|]]; try exact Hu.
    destruct (insert_one _ _ _) as [e|[doc' col']] eqn:I; cbn [snd].
    + apply Hb, Hu.
    + eapply insert_one_unique; [exact I | apply Hb, Hu].
  - unfold upsert_dashboard_interleaved. rewrite get_current_user_id_truthy.
    cbn [negb].
    destruct (get _ _) as [e|v]; [exact Hu|].
    destruct (_ || _); [exact Hu|].
    destruct (update_one _ _ _ _ _ _) as [e|[res col']] eqn:U; [exact Hu|].
    assert (Hu' : unique_index (between col')).
    { apply Hb. eapply update_one_unique; eassumption. }
    destruct (find_one _ _ _ _) as [e|doc]; exact Hu'.
Qed.

Lemma unique_index_under_interleaving_witness :
  let t := mkDatetime 2024 5 17 9 30 0 0 in
  let env := mkEnv t None None in
  let r := mkRequest [("X-User-Id", "alice")] (Json (JObj [("layout", JArr [])])) in
  let other := fun c => snd (upsert_dashboard env r "d1" c) in
  unique_index (snd (get_dashboard_interleaved other env r "d1" empty_collection)).
Proof.
  cbv zeta.
  refine (proj1 (unique_index_under_interleaving
            (fun c => snd (upsert_dashboard
                             (mkEnv (mkDatetime 2024 5 17 9 30 0 0) None None)
                             (mkRequest [("X-User-Id", "alice")]
                                (Json (JObj [("layout", JArr [])]))) "d1" c))
            (mkEnv (mkDatetime 2024 5 17 9 30 0 0) None None)
            (mkRequest [("X-User-Id", "alice")] (Json (JObj [("layout", JArr [])])))
            "d1" empty_collection _ _)).
  - constructor.
  - intros c Hc.
    exact (handle_unique
             (PUT (mkEnv (mkDatetime 2024 5 17 9 30 0 0) None None)
                (mkRequest [("X-User-Id", "alice")] (Json (JObj [("layout", JArr [])])))
                "d1") c Hc).
Defined.

(** What a PUT with a list and a store that takes the write leaves under
    its key, whether or not the read after it works. *)
Lemma upsert_dashboard_writes env r d col items :
  request_layout r = inr (JArr items) -> write_error env = None ->
  exists oid,
    stored (snd (upsert_dashboard env r d col)) (get_current_user_id r) d =
    Some (mkDocument oid (get_current_user_id r) d (Some (JArr items))
            (Some (bson_datetime (utcnow env)))).
Proof.
  intros Hl Hw. rewrite upsert_dashboard_eq. cbv zeta. rewrite Hl, Hw.
  destruct (update_one None col (get_current_user_id r) d (JArr items) (utcnow env))
    as [e'|[res col']] eqn:U.
  { unfold update_one in U. destruct (existsb _ _); discriminate. }
  destruct (update_one_spec _ _ _ _ _ _ _ U) as (Ho & _ & _).
  destruct (find_one _ _ _ _) as [e|doc]; [|destruct (upserted_id res)];
    cbn [snd]; exact Ho.
Qed.

(** X17: the dashboard in the answer of a PUT is what the read after the
    upsert finds, not what the PUT wrote.  When another PUT of the same
    identity on the same dashboardId is served between the two, the
    answer carries the other layout, with the status, "created" or
    "updated", of the PUT's own upsert. *)
Theorem upsert_dashboard_answers_with_later_write envA envB rA rB d col la lb :
  let u := get_current_user_id rA in
  let other := fun c => snd (upsert_dashboard envB rB d c) in
  get_current_user_id rB = u ->
  request_layout rA = inr (JArr la) -> request_layout rB = inr (JArr lb) ->
  write_error envA = None -> read_error envA = None -> write_error envB = None ->
  exists code status dashboard,
    fst (upsert_dashboard_interleaved other envA rA d col) =
      Respond code (JObj [("status", JStr status); ("dashboard", dashboard)]) /\
    field "layout" dashboard = Some (JArr lb) /\
    (stored col u d = None -> code = 201 /\ status = "created") /\
    (stored col u d <> None -> code = 200 /\ status = "updated").
Proof.
  intros u other Hu HlA HlB HwA HrA HwB.
  unfold upsert_dashboard_interleaved. rewrite get_current_user_id_truthy.
  cbn [negb]. fold u. change (get (or_else (get_json_silent rA) (JObj [])) "layout")
    with (request_layout rA). rewrite HlA. cbn [is_list negb orb]. rewrite HwA.
  destruct (update_one None col u d (JArr la) (utcnow envA)) as [e|[res col']] eqn:U.
  { unfold update_one in U. destruct (existsb _ _); discriminate. }
  destruct (upsert_dashboard_writes envB rB d col' lb HlB HwB) as [oid Ho].
  rewrite Hu in Ho. unfold find_one. rewrite HrA.
  change (find (matches u d) (docs (other col'))) with (stored (other col') u d).
  unfold other at 1 2. rewrite Ho.
  destruct (update_one_spec _ _ _ _ _ _ _ U)
    as (_ & _ & [([oid' Hc] & Hn & _) | (Hc & Hn & _)]); rewrite Hc.
  - exists 201, "created". eexists. split; [reflexivity|]. split; [reflexivity|].
    split; [intros _; split; reflexivity | intros K; contradiction].
  - exists 200, "updated". eexists. split; [reflexivity|]. split; [reflexivity|].
    split; [intros K; contradiction | intros _; split; reflexivity].
Qed.

Lemma upsert_dashboard_answers_with_later_write_witness :
  let t := mkDatetime 2024 5 17 9 30 0 0 in
  let put l := mkRequest [("X-User-Id", "alice")] (Json (JObj [("layout", JArr l)])) in
  let other := fun c => snd (upsert_dashboard (mkEnv t None None) (put [JInt 2]) "d1" c) in
  exists code status dashboard,
    fst (upsert_dashboard_interleaved other (mkEnv t None None) (put [JInt 1]) "d1"
           empty_collection) =
      Respond code (JObj [("status", JStr status); ("dashboard", dashboard)]) /\
    field "layout" dashboard = Some (JArr [JInt 2]) /\ code = 201.
Proof.
  cbv zeta.
  destruct (upsert_dashboard_answers_with_later_write
              (mkEnv (mkDatetime 2024 5 17 9 30 0 0) None None)
              (mkEnv (mkDatetime 2024 5 17 9 30 0 0) None None)
              (mkRequest [("X-User-Id", "alice")] (Json (JObj [("layout", JArr [JInt 1])])))
              (mkRequest [("X-User-Id", "alice")] (Json (JObj [("layout", JArr [JInt 2])])))
              "d1" empty_collection [JInt 1] [JInt 2]
              eq_refl eq_refl eq_refl eq_refl eq_refl eq_refl)
    as (code & status & dashboard & E & L & C & _).
  exists code, status, dashboard. split; [exact E|]. split; [exact L|].
  exact (proj1 (C eq_refl)).
Defined.

(** ** Clocks that do not go back *)

Lemma lex_refl a : lex a a = Eq.
Proof. induction a as [|x a IH]; simpl; [reflexivity|]. now rewrite Nat.compare_refl. Qed.

Lemma lex_trans_le a b c : lex a b <> Gt -> lex b c <> Gt -> lex a c <> Gt.
Proof.
  revert b c. induction a as [|x a IH]; intros [|y b] [|z c]; simpl;
    try congruence.
  destruct (Nat.compare_spec x y), (Nat.compare_spec y z); try congruence;
    subst; intros H1 H2.
  - rewrite Nat.compare_refl. eapply IH; eassumption.
  - destruct (Nat.compare_spec y z); try lia. discriminate.
  - destruct (Nat.compare_spec x z); try lia. discriminate.
  - destruct (Nat.compare_spec x z); try lia. discriminate.
Qed.

Lemma le_refl t : Datetime.le t t.
Proof. unfold Datetime.le, Datetime.compare. rewrite lex_refl. discriminate. Qed.

Lemma le_trans t1 t2 t3 : Datetime.le t1 t2 -> Datetime.le t2 t3 -> Datetime.le t1 t3.
Proof. unfold Datetime.le, Datetime.compare. apply lex_trans_le. Qed.

Lemma In_update_first {A : Type} (p : A -> bool) (f : A -> A) (l : list A) (y : A) :
  In y (update_first p f l) -> In y l \/ exists x, In x l /\ y = f x.
Proof.
  induction l as [|x l IH]; simpl; [tauto|].
  destruct (p x); simpl.
  - intros [<-|H]; [right; exists x; auto | auto].
  - intros [<-|H]; [auto|]. destruct (IH H) as [H'|(x' & H' & ->)]; eauto.
Qed.

Lemma lex_app_last p q a b :
  List.length p = List.length q ->
  lex (p ++ [a]) (q ++ [b]) =
  match lex p q with
  | Eq => Nat.compare a b
  | c => c
  end.
Proof.
  revert q. induction p as [|x p IH]; intros [|y q] Hlen; try discriminate Hlen.
  - simpl. destruct (Nat.compare a b); reflexivity.
  - simpl. destruct (Nat.compare x y); try reflexivity.
    apply IH. simpl in Hlen. congruence.
Qed.

Lemma fields_last t :
  fields t = [year t; month t; day t; hour t; minute t; second t] ++ [microsecond t].
Proof. reflexivity. Qed.

(** What the store keeps is not after what it was given ... *)
Lemma bson_datetime_le t : Datetime.le (bson_datetime t) t.
Proof.
  unfold Datetime.le, Datetime.compare. rewrite !fields_last.
  rewrite lex_app_last by reflexivity. cbn [year month day hour minute second microsecond bson_datetime].
  rewrite lex_refl. intros H. apply Nat.compare_gt_iff in H.
  pose proof (Nat.Div0.mul_div_le (microsecond t) 1000). lia.
Qed.

(** ... keeps the order of what it was given ... *)
Lemma bson_datetime_mono t1 t2 :
  Datetime.le t1 t2 -> Datetime.le (bson_datetime t1) (bson_datetime t2).
Proof.
  unfold Datetime.le, Datetime.compare. rewrite !fields_last.
  rewrite !lex_app_last by reflexivity.
  cbn [year month day hour minute second microsecond bson_datetime].
  destruct (lex _ _); try (intros H; exact H).
  intros H K. apply H. apply Nat.compare_gt_iff in K. apply Nat.compare_gt_iff.
  destruct (Nat.le_gt_cases (microsecond t1) (microsecond t2)) as [L|L]; [|exact L].
  exfalso. pose proof (Nat.Div0.div_le_mono _ _ 1000 L). nia.
Qed.

(** ... and is kept as it is when given again. *)
Lemma bson_datetime_idem t : bson_datetime (bson_datetime t) = bson_datetime t.
Proof.
  unfold bson_datetime. cbn [year month day hour minute second microsecond].
  now rewrite Nat.div_mul by discriminate.
Qed.

(** A request leaves every document either as it was or stamped with the
    clock reading of the request, at the store's precision. *)
Lemma handle_stamps c col doc :
  In doc (docs (snd (handle c col))) ->
  In doc (docs col) \/ updatedAt doc = Some (bson_datetime (clock c)).
Proof.
  destruct c as [env r d|env r d]; cbn [handle clock].
  - rewrite get_dashboard_eq. cbv zeta.
    destruct (find_one _ _ _ _) as [e|[x|]]; cbn [snd]; auto.
    unfold insert_one. destruct (write_error env); cbn [snd]; auto.
    destruct (existsb _ _); cbn [snd docs]; auto.
    intros H. apply in_app_or in H as [H|[<-|[]]]; auto.
  - rewrite upsert_dashboard_eq. cbv zeta.
    destruct (request_layout r) as [e|v]; cbn [snd]; auto.
    destruct v; cbn [snd]; auto.
    assert (H' : forall res col',
               update_one (write_error env) col (get_current_user_id r) d
                 (JArr items) (utcnow env) = inr (res, col') ->
               In doc (docs col') ->
               In doc (docs col) \/ updatedAt doc = Some (bson_datetime (utcnow env))).
    { unfold update_one. destruct (write_error env); [discriminate|].
      destruct (existsb _ _); intros res col' E; inversion E; subst; cbn [docs].
      - intros H. apply In_update_first in H as [H|(x & _ & ->)]; auto.
      - intros H. apply in_app_or in H as [H|[<-|[]]]; auto. }
    destruct (update_one _ _ _ _ _ _) as [e|[res col']]; cbn [snd]; auto.
    specialize (H' res col' eq_refl).
    destruct (find_one _ _ _ _) as [e|x]; [|destruct (upserted_id res)]; exact H'.
Qed.

Lemma handle_stamped_by c col t :
  stamped_by t col -> Datetime.le t (clock c) ->
  stamped_by (clock c) (snd (handle c col)).
Proof.
  intros Hs Hle doc t' Hin Ht.
  destruct (handle_stamps c col doc Hin) as [H|H].
  - eapply le_trans; [eapply Hs; eassumption | exact Hle].
  - rewrite H in Ht. injection Ht as <-. apply bson_datetime_le.
Qed.

(** The stamps of a collection the service built are whole milliseconds. *)
Lemma handle_whole_millis c col :
  (forall doc t, In doc (docs col) -> updatedAt doc = Some t -> bson_datetime t = t) ->
  forall doc t, In doc (docs (snd (handle c col))) -> updatedAt doc = Some t ->
                bson_datetime t = t.
Proof.
  intros Ha doc t Hin Ht.
  destruct (handle_stamps c col doc Hin) as [H|H].
  - eapply Ha; eassumption.
  - rewrite H in Ht. injection Ht as <-. apply bson_datetime_idem.
Qed.

Lemma reachable_forward_stamped t col :
  reachable_forward t col ->
  stamped_by t col /\
  (forall doc t', In doc (docs col) -> updatedAt doc = Some t' -> bson_datetime t' = t').
Proof.
  induction 1 as [t|t c col Hr [IH1 IH2] Hle].
  - split; intros doc t' [].
  - split.
    + apply handle_stamped_by with (t := t); assumption.
    + apply handle_whole_millis. exact IH2.
Qed.

(** In such a collection a stamp is at or before any later reading of the
    clock as the store will keep it. *)
Lemma reachable_forward_before t col now doc tp :
  reachable_forward t col -> Datetime.le t now ->
  In doc (docs col) -> updatedAt doc = Some tp ->
  Datetime.le tp (bson_datetime now).
Proof.
  intros Hr Hle Hin Ht.
  destruct (reachable_forward_stamped t col Hr) as [Hs Ha].
  rewrite <- (Ha doc tp Hin Ht). apply bson_datetime_mono.
  eapply le_trans; [eapply Hs; eassumption | exact Hle].
Qed.

(** Under a key, a request leaves the document it found or one stamped
    with its own clock reading. *)
Lemma handle_stored_stamp c col u d :
  stored (snd (handle c col)) u d = stored col u d \/
  exists doc, stored (snd (handle c col)) u d = Some doc /\
              updatedAt doc = Some (bson_datetime (clock c)).
Proof.
  destruct (key_eq_dec (key_of c) (u, d)) as [E|E];
    [|left; apply handle_other_keys; exact E].
  destruct c as [env r d'|env r d']; cbn [handle key_of clock] in *;
    injection E as <- <-.
  - destruct (stored col (get_current_user_id r) d') as [x|] eqn:S.
    + left. rewrite (get_dashboard_on_stored env r d' col x S). exact S.
    + rewrite get_dashboard_eq. cbv zeta. unfold find_one.
      destruct (read_error env); [left; exact S|].
      fold (stored col (get_current_user_id r) d'). rewrite S.
      destruct (write_error env); [left; exact S|].
      rewrite (insert_one_absent col
                 (mkDocument None (get_current_user_id r) d' (Some (JArr []))
                    (Some (utcnow env))) S).
      right. cbn [snd userId dashboardId layout updatedAt option_map]. eexists.
      unfold stored. cbn [docs]. rewrite find_app_one.
      change (find (matches (get_current_user_id r) d') (docs col))
        with (stored col (get_current_user_id r) d').
      rewrite S, matches_refl. split; reflexivity.
  - rewrite upsert_dashboard_eq. cbv zeta.
    destruct (request_layout r) as [e|v]; [left; reflexivity|].
    destruct v; try (left; reflexivity).
    destruct (update_one (write_error env) _ _ _ _ _) as [e|[res col']] eqn:U;
      [left; reflexivity|].
    pose proof (update_one_inr _ _ _ _ _ _ _ _ U) as Hw. rewrite Hw in U.
    destruct (update_one_spec _ _ _ _ _ _ _ U) as ([oid Ho] & _ & _).
    right. eexists.
    destruct (find_one _ _ _ _) as [e|x]; [|destruct (upserted_id res)];
      cbn [snd]; (split; [exact Ho | reflexivity]).
Qed.

(** X18: as long as the clock readings of the requests never go back,
    [updatedAt] never goes back either: in a collection built from nothing
    under such readings, a request whose reading is not before the last
    one leaves under every key an [updatedAt] at or after the one it
    found there. *)
Theorem updatedAt_follows_the_clock t c col u d prev tp next tn :
  reachable_forward t col ->
  Datetime.le t (clock c) ->
  stored col u d = Some prev -> updatedAt prev = Some tp ->
  stored (snd (handle c col)) u d = Some next -> updatedAt next = Some tn ->
  Datetime.le tp tn.
Proof.
  intros Hr Hle Hp Htp Hn Htn.
  destruct (handle_stored_stamp c col u d) as [E|(doc & E & Hd)].
  - rewrite E, Hp in Hn. injection Hn as <-. rewrite Htp in Htn.
    injection Htn as <-. apply le_refl.
  - rewrite E in Hn. injection Hn as <-. rewrite Hd in Htn. injection Htn as <-.
    apply (reachable_forward_before t col (clock c) prev tp Hr Hle); [|exact Htp].
    apply find_some in Hp. tauto.
Qed.

Lemma updatedAt_follows_the_clock_witness :
  let t1 := mkDatetime 2024 5 17 9 30 0 0 in
  let t2 := mkDatetime 2024 5 17 9 30 1 0 in
  let r := mkRequest [] (Json (JObj [("layout", JArr [])])) in
  let col := snd (handle (PUT (mkEnv t1 None None) r "d1") empty_collection) in
  Datetime.le t1 t2.
Proof.
  cbv zeta.
  refine (updatedAt_follows_the_clock
            (mkDatetime 2024 5 17 9 30 0 0)
            (PUT (mkEnv (mkDatetime 2024 5 17 9 30 1 0) None None)
               (mkRequest [] (Json (JObj [("layout", JArr [])]))) "d1")
            (snd (handle (PUT (mkEnv (mkDatetime 2024 5 17 9 30 0 0) None None)
                            (mkRequest [] (Json (JObj [("layout", JArr [])]))) "d1")
                    empty_collection))
            "demo-user" "d1"
            (mkDocument (Some 0) "demo-user" "d1" (Some (JArr []))
               (Some (mkDatetime 2024 5 17 9 30 0 0)))
            (mkDatetime 2024 5 17 9 30 0 0)
            (mkDocument (Some 0) "demo-user" "d1" (Some (JArr []))
               (Some (mkDatetime 2024 5 17 9 30 1 0)))
            (mkDatetime 2024 5 17 9 30 1 0)
            _ _ eq_refl eq_refl eq_refl eq_refl).
  - exact (forward_step (mkDatetime 2024 5 17 9 30 0 0)
             (PUT (mkEnv (mkDatetime 2024 5 17 9 30 0 0) None None)
                (mkRequest [] (Json (JObj [("layout", JArr [])]))) "d1")
             empty_collection (forward_empty _) (le_refl _)).
  - discriminate.
Defined.

(** ** The timestamp a PUT leaves *)

(** C9 (amended): a successful PUT sets [updatedAt] of its key to the
    reading of the server clock taken by the handler, as the store keeps
    it (to the millisecond), whatever the request carries; when the
    collection was built from nothing by requests whose clock readings
    never went back and the reading of this PUT is not before the last of
    them, that value is at or after the [updatedAt] the key had; and every
    [updatedAt] that [serialize_dashboard] gives as a string ends in "Z". *)
Theorem put_sets_updatedAt env r d col :
  successful (fst (upsert_dashboard env r d col)) = true ->
  let u := get_current_user_id r in
  let col' := snd (upsert_dashboard env r d col) in
  (exists doc, stored col' u d = Some doc /\
               updatedAt doc = Some (bson_datetime (utcnow env))) /\
  (forall t prev tp,
     reachable_forward t col -> Datetime.le t (utcnow env) ->
     stored col u d = Some prev -> updatedAt prev = Some tp ->
     exists doc tn, stored col' u d = Some doc /\ updatedAt doc = Some tn /\
                    Datetime.le tp tn) /\
  (forall doc s,
     field "updatedAt" (serialize_dashboard doc) = Some (JStr s) -> ends_in_Z s).
Proof.
  intros Hs u col'.
  destruct (upsert_dashboard_success env r d col Hs)
    as (items & res & c & Hl & _ & _ & _ & _).
  destruct (upsert_dashboard_stores env r d col items Hs Hl) as [oid Hst].
  fold u col' in Hst. repeat split.
  - eexists. split; [exact Hst | reflexivity].
  - intros t prev tp Hr Hle Hp Htp. do 2 eexists.
    split; [exact Hst|]. split; [reflexivity|].
    apply (reachable_forward_before t col (utcnow env) prev tp Hr Hle); [|exact Htp].
    apply find_some in Hp. tauto.
  - apply serialized_updatedAt_ends_in_Z.
Qed.

Lemma put_sets_updatedAt_witness :
  let t1 := mkDatetime 2024 5 17 9 30 0 0 in
  let t2 := mkDatetime 2024 5 17 9 30 0 1500 in
  let r := mkRequest []
             (Json (JObj [("layout", JArr []); ("updatedAt", JStr "1999-01-01")])) in
  let col := snd (handle (PUT (mkEnv t1 None None) r "d1") empty_collection) in
  exists doc tn,
    stored (snd (upsert_dashboard (mkEnv t2 None None) r "d1" col)) "demo-user" "d1"
      = Some doc /\
    updatedAt doc = Some tn /\ Datetime.le t1 tn.
Proof.
  cbv zeta.
  refine (proj1 (proj2 (put_sets_updatedAt
            (mkEnv (mkDatetime 2024 5 17 9 30 0 1500) None None)
            (mkRequest []
               (Json (JObj [("layout", JArr []); ("updatedAt", JStr "1999-01-01")])))
            "d1"
            (snd (handle
                    (PUT (mkEnv (mkDatetime 2024 5 17 9 30 0 0) None None)
                       (mkRequest []
                          (Json (JObj [("layout", JArr []);
                                       ("updatedAt", JStr "1999-01-01")]))) "d1")
                    empty_collection))
            eq_refl))
            (mkDatetime 2024 5 17 9 30 0 0)
            (mkDocument (Some 0) "demo-user" "d1" (Some (JArr []))
               (Some (mkDatetime 2024 5 17 9 30 0 0)))
            (mkDatetime 2024 5 17 9 30 0 0)
            _ _ eq_refl eq_refl).
  - exact (forward_step (mkDatetime 2024 5 17 9 30 0 0)
             (PUT (mkEnv (mkDatetime 2024 5 17 9 30 0 0) None None)
                (mkRequest []
                   (Json (JObj [("layout", JArr []);
                                ("updatedAt", JStr "1999-01-01")]))) "d1")
             empty_collection (forward_empty _) (le_refl _)).
  - discriminate.
Defined.

(** ** Bodies without a list under [layout] *)

(** X19: a PUT whose body does not give a list under [layout] never
    writes.  Its outcome is the 400 "Field 'layout' (array) is required",
    except when the body is JSON for a value that Python holds true and
    that is not an object: then [data.get] raises [AttributeError] and the
    exception leaves the handler. *)
Theorem upsert_dashboard_without_list env r d col :
  (forall items, request_layout r <> inr (JArr items)) ->
  snd (upsert_dashboard env r d col) = col /\
  (fst (upsert_dashboard env r d col) =
     Respond 400 (error_body "Field 'layout' (array) is required")
   \/
   exists e,
     exn_class e = "AttributeError" /\
     fst (upsert_dashboard env r d col) = Unhandled e /\
     truthy (get_json_silent r) = true /\
     forall fs, get_json_silent r <> JObj fs).
Proof.
  intros Hno. rewrite upsert_dashboard_eq. cbv zeta.
  destruct (request_layout r) as [e|v] eqn:E.
  - split; [reflexivity|]. right. exists e.
    unfold request_layout, or_else in E.
    destruct (truthy (get_json_silent r)) eqn:T; [|discriminate].
    destruct (get_json_silent r); cbn [get] in E; try discriminate;
      injection E as <-; repeat split; intros fs K; discriminate K.
  - destruct v; try (split; [reflexivity | left; reflexivity]).
    exfalso. apply (Hno items). reflexivity.
Qed.

Lemma upsert_dashboard_without_list_witness :
  let env := mkEnv (mkDatetime 2024 5 17 9 30 0 0) None None in
  let r := mkRequest [] (Json (JObj [("layout", JObj [("widgetId", JStr "a")])])) in
  let col := mkCollection
               [mkDocument (Some 0) "demo-user" "d1" (Some (JArr [JInt 7]))
                  (Some (mkDatetime 2024 5 17 9 0 0 0))] 1 in
  snd (upsert_dashboard env r "d1" col) = col.
Proof.
  cbv zeta.
  apply (proj1 (upsert_dashboard_without_list
           (mkEnv (mkDatetime 2024 5 17 9 30 0 0) None None)
           (mkRequest [] (Json (JObj [("layout", JObj [("widgetId", JStr "a")])])))
           "d1"
           (mkCollection
              [mkDocument (Some 0) "demo-user" "d1" (Some (JArr [JInt 7]))
                 (Some (mkDatetime 2024 5 17 9 0 0 0))] 1)
           (fun items K => ltac:(discriminate K)))).
Defined.
